(** * movie-app: the search / pagination / trending flow of [src/App.jsx]

    A shallow embedding of the [App] component's state and of the
    functions that mutate it ([fetchMovies], [loadTrendingMovies],
    [handleScroll] and the two data effects), followed by the properties
    the specification states about them.

    A handler is a function from the system state to a completion, a new
    state and the list of effects it performed, in program order.  An
    [await] is modelled in two ways.  [fetchMovies] is the call as the
    source reads, from its first line to its [finally], with the outcome
    of every awaited call supplied by the environment ([World]).
    [fetchMovies_begin] and [fetchMovies_resume] are the same call as
    the browser runs it: up to the request, and from the answer on, with
    the suspended call kept in the state in between, so that other
    events can be interleaved.  (The later awaits of a call, on the
    response body and on the trending tracker, are taken to settle with
    no other event in between, in both.)

    A setter call is modelled as writing its cell at once: the state of
    a [Sys] is the pending state, the one the next render will show.
    What a listener or an effect reads from its closure are the
    constants of the render that created it; the functions that do so
    ([handleScroll], the two effects) take that render as an argument.
    [Loop] is the component under any order of events and renders;
    [mount] and [on_debounce] are the schedules in which an event finds
    the render up to date and is followed at once by the render it
    causes. *)

From Stdlib Require Import ZArith NArith List Ascii String Bool Lia.
Import ListNotations.

Local Open Scope string_scope.
Local Open Scope Z_scope.

(* ================================================================== *)
(** ** JavaScript values as the component uses them *)

Module JS.

(** How a statement ends: normally with a value, or with a thrown
    error.  The error carries the text that [`${error}`] renders. *)
Inductive completion (A : Type) : Type :=
| Normal (a : A)
| Throw (error : string).
Arguments Normal {A} a.
Arguments Throw {A} error.

(** [ToBoolean] on a string: only the empty string is falsy. *)
Definition truthy (s : string) : bool :=
  match s with
  | EmptyString => false
  | String _ _ => true
  end.

(** [x || dflt] where [x] is a string property that may be absent. *)
Definition or_else (x : option string) (dflt : string) : string :=
  match x with
  | Some s => if truthy s then s else dflt
  | None => dflt
  end.

(** [x === lit] where [x] is a string property that may be absent. *)
Definition strict_eq (x : option string) (lit : string) : bool :=
  match x with
  | Some s => String.eqb s lit
  | None => false
  end.

(** [a < b] on numeric properties that may be absent: [undefined]
    converts to [NaN], and every comparison with [NaN] is false. *)
Definition lt (a b : option Z) : bool :=
  match a, b with
  | Some x, Some y => x <? y
  | _, _ => false
  end.

(** A string holds the bytes of a JavaScript string in generalised
    UTF-8 (WTF-8): a well-formed string is its UTF-8 bytes, and a
    surrogate code unit outside a pair is the three bytes ED, A0..BF,
    80..BF, which no well-formed string contains. *)
Definition lone_surrogate_at (a b : ascii) : bool :=
  N.eqb (N_of_ascii a) 237 &&
  N.leb 160 (N_of_ascii b) && N.leb (N_of_ascii b) 191.

(** [s.isWellFormed()]: no surrogate outside a pair.  It is on the
    other strings that [encodeURIComponent(s)] throws. *)
Fixpoint well_formed (s : string) : bool :=
  match s with
  | String a rest =>
      match rest with
      | String b _ => negb (lone_surrogate_at a b) && well_formed rest
      | EmptyString => true
      end
  | EmptyString => true
  end.

(** What [encodeURIComponent] throws. *)
Definition URIError : string := "URIError: URI malformed".

(** What reading [.length] of [undefined] throws. *)
Definition TypeError_length : string :=
  "TypeError: Cannot read properties of undefined (reading 'length')".

End JS.

Import JS.

(* ================================================================== *)
(** ** The movie catalog (TMDB) *)

Module Tmdb.

(** A movie as the catalog returns it; the component never changes it. *)
Record Movie : Type := {
  id : Z;
  title : string;
  poster_path : string
}.

(** The parsed body of a catalog response: a JSON object, of which the
    component reads five properties.  A property that the body does not
    carry reads as [undefined], here [None]. *)
Record Payload : Type := {
  Response : option string;
  Error : option string;
  page : option Z;
  total_pages : option Z;
  results : option (list Movie)
}.

(** [data.results || []] *)
Definition results_or_empty (data : Payload) : list Movie :=
  match results data with
  | Some rs => rs
  | None => []
  end.

(** The two request shapes of [fetchMovies]:
    [`${API_BASE_URL}/search/movie?query=${encodeURIComponent(query)}&page=${pageNumber}`]
    and [`${API_BASE_URL}/discover/movie?sort_by=popularity.desc&page=${pageNumber}`]. *)
Inductive Endpoint : Type :=
| SearchMovie (query : string) (pageNumber : Z)
| DiscoverMovie (pageNumber : Z).

(** What [fetch] hands back once it resolves. *)
Record HttpResponse : Type := {
  ok : bool;
  json : completion Payload
}.

(** [await fetch(endpoint, API_OPTIONS)]: the promise rejects (network
    error) or resolves to a response of any status. *)
Inductive FetchResult : Type :=
| Rejected (error : string)
| Responded (response : HttpResponse).

End Tmdb.

(* ================================================================== *)
(** ** The trending store (documents kept by the hosted database) *)

Module Db.

(** Modelled from the spec: the trending record of the external store,
    which the sources reach only through [appwrite.js]: search term,
    hit count, movie identifier, poster URL and the identifier the
    store assigns. *)
Record Document : Type := {
  id : nat;
  searchTerm : string;
  count : Z;
  movie_id : Z;
  poster_url : string
}.

Record Store : Type := {
  documents : list Document;
  next_id : nat
}.

Definition has_term (term : string) (d : Document) : bool :=
  String.eqb (searchTerm d) term.

(** Query by field-equals-term; the first match is the record. *)
Definition lookup (term : string) (st : Store) : option Document :=
  find (has_term term) (documents st).

Definition bump (d : Document) : Document :=
  {| id := id d;
     searchTerm := searchTerm d;
     count := count d + 1;
     movie_id := movie_id d;
     poster_url := poster_url d |}.

(** Replace the document whose identifier is [i] by its bumped copy. *)
Fixpoint increment (i : nat) (ds : list Document) : list Document :=
  match ds with
  | [] => []
  | d :: rest =>
      if Nat.eqb (id d) i then bump d :: rest
      else d :: increment i rest
  end.

Definition update (i : nat) (st : Store) : Store :=
  {| documents := increment i (documents st); next_id := next_id st |}.

Definition create (term : string) (m : Tmdb.Movie) (st : Store) : Store :=
  {| documents :=
       (documents st ++
        [ {| id := next_id st;
             searchTerm := term;
             count := 1;
             movie_id := Tmdb.id m;
             poster_url := Tmdb.poster_path m |} ])%list;
     next_id := S (next_id st) |}.

(** Records ordered by count, largest first. *)
Fixpoint insert_desc (d : Document) (ds : list Document) : list Document :=
  match ds with
  | [] => [d]
  | e :: rest =>
      if count e <? count d then d :: e :: rest
      else e :: insert_desc d rest
  end.

Definition order_desc (ds : list Document) : list Document :=
  fold_right insert_desc [] ds.

Definition top (n : nat) (st : Store) : list Document :=
  firstn n (order_desc (documents st)).

End Db.

(* ================================================================== *)
(** ** Component state *)

Module Ui.

(** The eight [useState] cells of [App]. *)
Record State : Type := {
  debouncedSearchTerm : string;
  searchTerm : string;
  movieList : list Tmdb.Movie;
  errorMessage : string;
  isLoading : bool;
  trendingMovies : list Db.Document;
  page : Z;
  hasMore : bool
}.

(** The values passed to [useState] on the first render. *)
Definition initial : State :=
  {| debouncedSearchTerm := "";
     searchTerm := "";
     movieList := [];
     errorMessage := "";
     isLoading := false;
     trendingMovies := [];
     page := 1;
     hasMore := true |}.

(** A call of one of the state setters, with the value it stores. *)
Inductive Setter : Type :=
| SetDebouncedSearchTerm (v : string)
| SetSearchTerm (v : string)
| SetMovieList (v : list Tmdb.Movie)
| SetErrorMessage (v : string)
| SetIsLoading (v : bool)
| SetTrendingMovies (v : list Db.Document)
| SetPage (v : Z)
| SetHasMore (v : bool).

Definition apply (w : Setter) (s : State) : State :=
  match w with
  | SetDebouncedSearchTerm v =>
      {| debouncedSearchTerm := v; searchTerm := searchTerm s;
         movieList := movieList s; errorMessage := errorMessage s;
         isLoading := isLoading s; trendingMovies := trendingMovies s;
         page := page s; hasMore := hasMore s |}
  | SetSearchTerm v =>
      {| debouncedSearchTerm := debouncedSearchTerm s; searchTerm := v;
         movieList := movieList s; errorMessage := errorMessage s;
         isLoading := isLoading s; trendingMovies := trendingMovies s;
         page := page s; hasMore := hasMore s |}
  | SetMovieList v =>
      {| debouncedSearchTerm := debouncedSearchTerm s; searchTerm := searchTerm s;
         movieList := v; errorMessage := errorMessage s;
         isLoading := isLoading s; trendingMovies := trendingMovies s;
         page := page s; hasMore := hasMore s |}
  | SetErrorMessage v =>
      {| debouncedSearchTerm := debouncedSearchTerm s; searchTerm := searchTerm s;
         movieList := movieList s; errorMessage := v;
         isLoading := isLoading s; trendingMovies := trendingMovies s;
         page := page s; hasMore := hasMore s |}
  | SetIsLoading v =>
      {| debouncedSearchTerm := debouncedSearchTerm s; searchTerm := searchTerm s;
         movieList := movieList s; errorMessage := errorMessage s;
         isLoading := v; trendingMovies := trendingMovies s;
         page := page s; hasMore := hasMore s |}
  | SetTrendingMovies v =>
      {| debouncedSearchTerm := debouncedSearchTerm s; searchTerm := searchTerm s;
         movieList := movieList s; errorMessage := errorMessage s;
         isLoading := isLoading s; trendingMovies := v;
         page := page s; hasMore := hasMore s |}
  | SetPage v =>
      {| debouncedSearchTerm := debouncedSearchTerm s; searchTerm := searchTerm s;
         movieList := movieList s; errorMessage := errorMessage s;
         isLoading := isLoading s; trendingMovies := trendingMovies s;
         page := v; hasMore := hasMore s |}
  | SetHasMore v =>
      {| debouncedSearchTerm := debouncedSearchTerm s; searchTerm := searchTerm s;
         movieList := movieList s; errorMessage := errorMessage s;
         isLoading := isLoading s; trendingMovies := trendingMovies s;
         page := page s; hasMore := v |}
  end.

(** What [handleScroll] reads from [window] and [document]. *)
Record Viewport : Type := {
  innerHeight : Z;
  scrollTop : Z;
  offsetHeight : Z
}.

End Ui.

(* ================================================================== *)
(** ** Effects: state, environment, and the handler monad *)

Module Eff.

(** A [fetchMovies] call suspended at [await fetch(...)]: the
    arguments it was called with. *)
Record Call : Type := {
  call_query : string;
  call_page : Z
}.

(** Everything a handler can change: the component state, the trending
    store, and the calls waiting for the catalog, oldest first. *)
Record Sys : Type := {
  ui : Ui.State;
  db : Db.Store;
  in_flight : list Call
}.

(** Everything a handler can observe from outside: what the catalog
    answers to a request, and which store operations fail. *)
Record World : Type := {
  http : Tmdb.Endpoint -> Tmdb.FetchResult;
  lookup_fails : bool;
  write_fails : bool;
  list_fails : bool
}.

(** The effects of a handler that are visible from outside it. *)
Inductive Event : Type :=
| EvSet (w : Ui.Setter)
| EvFetch (endpoint : Tmdb.Endpoint)
| EvUpdateSearchCount (term : string) (movie : Tmdb.Movie)
| EvGetTrendingMovies
| EvConsoleError (message : string).

Record Run (A : Type) : Type := {
  value : completion A;
  state : Sys;
  log : list Event
}.
Arguments value {A} r.
Arguments state {A} r.
Arguments log {A} r.

Definition M (A : Type) : Type := Sys -> Run A.

Definition ret {A} (a : A) : M A :=
  fun s => {| value := Normal a; state := s; log := [] |}.

Definition throw {A} (error : string) : M A :=
  fun s => {| value := Throw error; state := s; log := [] |}.

(** The effects [l] happened first, then the run [r]. *)
Definition after {A} (l : list Event) (r : Run A) : Run A :=
  match r with
  | {| value := v; state := s; log := l' |} =>
      {| value := v; state := s; log := (l ++ l')%list |}
  end.

Definition bind {A B} (m : M A) (k : A -> M B) : M B :=
  fun s =>
    match m s with
    | {| value := Normal a; state := s'; log := l |} => after l (k a s')
    | {| value := Throw e; state := s'; log := l |} =>
        {| value := Throw e; state := s'; log := l |}
    end.

(** [try { body } catch (error) { handler }] *)
Definition try_catch {A} (body : M A) (handler : string -> M A) : M A :=
  fun s =>
    match body s with
    | {| value := Normal a; state := s'; log := l |} =>
        {| value := Normal a; state := s'; log := l |}
    | {| value := Throw e; state := s'; log := l |} => after l (handler e s')
    end.

(** [try { body } finally { fin }]: [fin] runs however [body] ends,
    and the completion of [body] stands unless [fin] itself throws. *)
Definition try_finally {A} (body : M A) (fin : M unit) : M A :=
  fun s =>
    match body s with
    | {| value := v; state := s'; log := l |} =>
        match fin s' with
        | {| value := Normal _; state := s''; log := l' |} =>
            {| value := v; state := s''; log := (l ++ l')%list |}
        | {| value := Throw e; state := s''; log := l' |} =>
            {| value := Throw e; state := s''; log := (l ++ l')%list |}
        end
    end.

Definition emit (e : Event) : M unit :=
  fun s => {| value := Normal tt; state := s; log := [e] |}.

Definition read {A} (f : Ui.State -> A) : M A :=
  fun s => {| value := Normal (f (ui s)); state := s; log := [] |}.

Definition setState (w : Ui.Setter) : M unit :=
  fun s => {| value := Normal tt;
              state := {| ui := Ui.apply w (ui s); db := db s;
                          in_flight := in_flight s |};
              log := [EvSet w] |}.

Definition read_db : M Db.Store :=
  fun s => {| value := Normal (db s); state := s; log := [] |}.

Definition write_db (f : Db.Store -> Db.Store) : M unit :=
  fun s => {| value := Normal tt;
              state := {| ui := ui s; db := f (db s);
                          in_flight := in_flight s |};
              log := [] |}.

(** The running call stops at its [await]. *)
Definition suspend (c : Call) : M unit :=
  fun s => {| value := Normal tt;
              state := {| ui := ui s; db := db s;
                          in_flight := (in_flight s ++ [c])%list |};
              log := [] |}.

(** The [n]-th waiting call (from 0) leaves the waiting list. *)
Definition take (n : nat) : M (option Call) :=
  fun s => {| value := Normal (nth_error (in_flight s) n);
              state := {| ui := ui s; db := db s;
                          in_flight :=
                            (firstn n (in_flight s) ++
                             skipn (S n) (in_flight s))%list |};
              log := [] |}.

(** [console.error(message)] *)
Definition console_error (message : string) : M unit :=
  emit (EvConsoleError message).

End Eff.

Import Eff.

Declare Scope js_scope.
Delimit Scope js_scope with js.
Notation "x <- m ;; k" := (bind m (fun x => k))
  (at level 61, m at next level, right associativity) : js_scope.
Notation "m ;; k" := (bind m (fun _ => k))
  (at level 61, right associativity) : js_scope.
Local Open Scope js_scope.

(* ================================================================== *)
(** ** [appwrite.js]: the trending tracker *)

Module Appwrite.

(** Modelled from the spec: the operations of the external store
    (query by field-equals-term, update, create, list top N by count
    descending).  A failing operation throws. *)
Definition listDocuments_equal (w : World) (term : string) : M (option Db.Document) :=
  if lookup_fails w then throw "AppwriteException: query failed"
  else st <- read_db ;; ret (Db.lookup term st).

Definition updateDocument (w : World) (i : nat) : M unit :=
  if write_fails w then throw "AppwriteException: update failed"
  else write_db (Db.update i).

Definition createDocument (w : World) (term : string) (m : Tmdb.Movie) : M unit :=
  if write_fails w then throw "AppwriteException: create failed"
  else write_db (Db.create term m).

Definition listDocuments_top (w : World) (n : nat) : M (list Db.Document) :=
  if list_fails w then throw "AppwriteException: list failed"
  else st <- read_db ;; ret (Db.top n st).

(** Modelled from the spec: [updateSearchCount] of [appwrite.js], which
    is not among the sources.  Record update: look up the counter
    record for the exact term; if found, increment its count by one; if
    not found, create a record with count 1 holding the movie's
    identifier and poster.  A failure is logged and otherwise
    swallowed. *)
Definition updateSearchCount (w : World) (term : string) (movie : Tmdb.Movie) : M unit :=
  emit (EvUpdateSearchCount term movie) ;;
  try_catch
    (found <- listDocuments_equal w term ;;
     match found with
     | Some doc => updateDocument w (Db.id doc)
     | None => createDocument w term movie
     end)
    (fun error => console_error error).

(** Modelled from the spec: [getTrendingMovies] of [appwrite.js], which
    is not among the sources.  Top list retrieval: the records ordered
    by count descending, limited to the top 10.  A failure reaches the
    caller, [loadTrendingMovies], which logs and swallows it. *)
Definition getTrendingMovies (w : World) : M (list Db.Document) :=
  emit EvGetTrendingMovies ;;
  listDocuments_top w 10.

End Appwrite.

(* ================================================================== *)
(** ** [App.jsx]: the component's functions *)

Module App.

Import Ui.

Definition setDebouncedSearchTerm (v : string) : M unit := setState (SetDebouncedSearchTerm v).
Definition setSearchTerm (v : string) : M unit := setState (SetSearchTerm v).
Definition setMovieList (v : list Tmdb.Movie) : M unit := setState (SetMovieList v).
Definition setErrorMessage (v : string) : M unit := setState (SetErrorMessage v).
Definition setIsLoading (v : bool) : M unit := setState (SetIsLoading v).
Definition setTrendingMovies (v : list Db.Document) : M unit := setState (SetTrendingMovies v).
Definition setPage (v : Z) : M unit := setState (SetPage v).
Definition setHasMore (v : bool) : M unit := setState (SetHasMore v).

(** [setMovieList(prevMovies => f(prevMovies))] *)
Definition setMovieList_from (f : list Tmdb.Movie -> list Tmdb.Movie) : M unit :=
  prevMovies <- read movieList ;; setMovieList (f prevMovies).

(** [setPage(prevPage => f(prevPage))] *)
Definition setPage_from (f : Z -> Z) : M unit :=
  prevPage <- read page ;; setPage (f prevPage).

(** [const endpoint = query ? `.../search/movie...` : `.../discover/movie...`] *)
Definition endpoint (query : string) (pageNumber : Z) : Tmdb.Endpoint :=
  if truthy query then Tmdb.SearchMovie query pageNumber
  else Tmdb.DiscoverMovie pageNumber.

(** The template of the search request evaluates
    [encodeURIComponent(query)]; the discovery template does not.  So a
    call can send its request unless its term is truthy and does not
    encode. *)
Definition sendable (query : string) : bool :=
  if truthy query then well_formed query else true.

(** [const endpoint = query ? `...${encodeURIComponent(query)}...` : `...`],
    inside the [try]: the request to send, or the [URIError]. *)
Definition build_endpoint (query : string) (pageNumber : Z) : M Tmdb.Endpoint :=
  if sendable query then ret (endpoint query pageNumber)
  else throw URIError.

(** [await fetch(endpoint, API_OPTIONS)], once the promise settles. *)
Definition settled (r : Tmdb.FetchResult) : M Tmdb.HttpResponse :=
  match r with
  | Tmdb.Rejected error => throw error
  | Tmdb.Responded response => ret response
  end.

(** [await fetch(endpoint, API_OPTIONS)] *)
Definition fetch (w : World) (e : Tmdb.Endpoint) : M Tmdb.HttpResponse :=
  emit (EvFetch e) ;;
  settled (http w e).

(** [const data = await response.json()], as far as the first read of
    a property of [data]: the promise rejects when the body is not
    JSON, and a body that is the JSON [null] makes the next line throw a
    [TypeError]; either way the [catch] is reached with nothing written
    in between, which is the case [Throw] of the response. *)
Definition json (response : Tmdb.HttpResponse) : M Tmdb.Payload :=
  match Tmdb.json response with
  | Normal data => ret data
  | Throw error => throw error
  end.

(** [data.results.length]: throws when [results] is absent. *)
Definition results_length (data : Tmdb.Payload) : M Z :=
  match Tmdb.results data with
  | Some rs => ret (Z.of_nat (List.length rs))
  | None => throw TypeError_length
  end.

(** [query && data.results.length > 0 && pageNumber === 1], evaluated
    left to right with short circuit. *)
Definition is_fresh_search_with_results
    (query : string) (data : Tmdb.Payload) (pageNumber : Z) : M bool :=
  if truthy query then
    n <- results_length data ;;
    ret (if 0 <? n then pageNumber =? 1 else false)
  else ret false.

(** [data.results[0]].  The guard evaluated before it has found the
    array non-empty, so the index is in range. *)
Definition first_result (data : Tmdb.Payload) : M Tmdb.Movie :=
  match Tmdb.results data with
  | Some (m :: _) => ret m
  | _ => throw "TypeError: no first result"
  end.

Definition loadTrendingMovies (w : World) : M unit :=
  try_catch
    (movies <- Appwrite.getTrendingMovies w ;;
     setTrendingMovies movies)
    (fun error =>
       console_error ("Error fetching trending movies: " ++ error)).

(** The [try] block of [fetchMovies] from the response on. *)
Definition fetchMovies_then (w : World) (query : string) (pageNumber : Z)
    (response : Tmdb.HttpResponse) : M unit :=
  if negb (Tmdb.ok response) then
    throw "Error: Failed to fetch movies"
  else
    data <- json response ;;
    if strict_eq (Tmdb.Response data) "False" then
      setErrorMessage (or_else (Tmdb.Error data) "Failed to fetch movies") ;;
      setMovieList []
    else
      setHasMore (lt (Tmdb.page data) (Tmdb.total_pages data)) ;;
      (if pageNumber =? 1 then
         setMovieList (Tmdb.results_or_empty data)
       else
         setMovieList_from
           (fun prevMovies => (prevMovies ++ Tmdb.results_or_empty data)%list)) ;;
      fresh <- is_fresh_search_with_results query data pageNumber ;;
      if fresh then
        movie <- first_result data ;;
        Appwrite.updateSearchCount w query movie ;;
        loadTrendingMovies w
      else ret tt.

(** The [catch] block of [fetchMovies]. *)
Definition fetchMovies_catch (error : string) : M unit :=
  console_error ("Error fetching movies: " ++ error) ;;
  setErrorMessage "Error fetching movies. Please try again later.".

(** [fetchMovies(query, pageNumber)], from its first line to its
    [finally]. *)
Definition fetchMovies (w : World) (query : string) (pageNumber : Z) : M unit :=
  setIsLoading true ;;
  setErrorMessage "" ;;
  try_finally
    (try_catch
       (e <- build_endpoint query pageNumber ;;
        response <- fetch w e ;;
        fetchMovies_then w query pageNumber response)
       fetchMovies_catch)
    (setIsLoading false).

(** The same call up to its first [await]: the two setters, the
    request, and the call is suspended.  When the term does not encode
    there is no request and no [await]: the call runs its [catch] and
    its [finally] and is over. *)
Definition fetchMovies_begin (query : string) (pageNumber : Z) : M unit :=
  setIsLoading true ;;
  setErrorMessage "" ;;
  if sendable query then
    emit (EvFetch (endpoint query pageNumber)) ;;
    suspend {| call_query := query; call_page := pageNumber |}
  else
    try_finally
      (try_catch
         (e <- build_endpoint query pageNumber ;; ret tt)
         fetchMovies_catch)
      (setIsLoading false).

(** The same call from the moment its request settles with [r],
    followed to its [finally]: the later [await]s of the call (on the
    body, on the trending store) are taken to settle with no other
    event in between. *)
Definition fetchMovies_resume (w : World) (c : Call) (r : Tmdb.FetchResult) : M unit :=
  try_finally
    (try_catch
       (response <- settled r ;;
        fetchMovies_then w (call_query c) (call_page c) response)
       fetchMovies_catch)
    (setIsLoading false).

(** [handleScroll], as the listener a render registered.  [isLoading]
    and [hasMore] are constants of that render, [rendered]: the listener
    is registered again only by the effects of a later render in which
    one of them differs.  The page number is not read from the closure
    but advanced through an updater. *)
Definition handleScroll (rendered : State) (vp : Viewport) : M unit :=
  if isLoading rendered || negb (hasMore rendered) then ret tt
  else
    let scrollPosition := innerHeight vp + scrollTop vp in
    let scrollThreshold := offsetHeight vp - 300 in
    if scrollThreshold <=? scrollPosition then
      setPage_from (fun prevPage => prevPage + 1)
    else ret tt.

(** *** Effects and events

    The effects call [fetchMovies] without waiting for it.  They are
    written once, over the way such a call is carried out:
    [fetchMovies w] when the call is followed to its end,
    [fetchMovies_begin] when it is left suspended at its request.  An
    effect reads [page] and [debouncedSearchTerm] from the render it
    belongs to, [rendered]. *)

Section Handlers.

Variable call_fetchMovies : string -> Z -> M unit.

(** [useEffect(() => { if (page > 1) fetchMovies(debouncedSearchTerm, page) }, [page])] *)
Definition page_effect (rendered : State) : M unit :=
  if 1 <? page rendered then
    call_fetchMovies (debouncedSearchTerm rendered) (page rendered)
  else ret tt.

(** [useEffect(() => { setPage(1); setHasMore(true);
      fetchMovies(debouncedSearchTerm, 1) }, [debouncedSearchTerm])] *)
Definition debouncedSearchTerm_effect (rendered : State) : M unit :=
  setPage 1 ;;
  setHasMore true ;;
  call_fetchMovies (debouncedSearchTerm rendered) 1.

(** After the first render every effect runs, in the order the
    component declares them: the page effect, then the debounced-term
    effect. *)
Definition first_effects (rendered : State) : M unit :=
  page_effect rendered ;;
  debouncedSearchTerm_effect rendered.

(** After a later render, an effect runs when its dependency differs
    from the render before. *)
Definition effects (previous rendered : State) : M unit :=
  (if page previous =? page rendered then ret tt
   else page_effect rendered) ;;
  (if String.eqb (debouncedSearchTerm previous) (debouncedSearchTerm rendered)
   then ret tt
   else debouncedSearchTerm_effect rendered).

(** *** Schedules without a stale render

    In the two handlers below the event finds the render up to date
    with the state, and the render it causes, with its effects, follows
    before anything else happens. *)

(** The render after a handler that may have changed the page number. *)
Definition when_page_changed (before : Z) : M unit :=
  rendered <- read (fun s => s) ;;
  if before =? page rendered then ret tt else page_effect rendered.

(** The first render and its effects. *)
Definition mount : M unit :=
  before <- read page ;;
  rendered <- read (fun s => s) ;;
  first_effects rendered ;;
  when_page_changed before.

(** The debounce timer fires, 500 ms after the last keystroke:
    [setDebouncedSearchTerm(searchTerm)], and the renders after it. *)
Definition on_debounce : M unit :=
  old <- read debouncedSearchTerm ;;
  new <- read searchTerm ;;
  setDebouncedSearchTerm new ;;
  if String.eqb old new then ret tt
  else
    before <- read page ;;
    rendered <- read (fun s => s) ;;
    debouncedSearchTerm_effect rendered ;;
    when_page_changed before.

End Handlers.

(** A keystroke in the search box. *)
Definition on_input (text : string) : M unit :=
  setSearchTerm text.

(** The request of the [n]-th waiting call settles with [r]: the call
    resumes.  It writes neither the page number nor the debounced term,
    so no effect runs after it. *)
Definition on_response (w : World) (n : nat) (r : Tmdb.FetchResult) : M unit :=
  waiting <- take n ;;
  match waiting with
  | Some c => fetchMovies_resume w c r
  | None => ret tt
  end.

(** The system as the first render finds it. *)
Definition boot (store : Db.Store) : Sys :=
  {| ui := initial; db := store; in_flight := [] |}.

End App.

(* ================================================================== *)
(** ** Reading a log *)

Module Log.

Definition is_fetch (e : Event) : bool :=
  match e with EvFetch _ => true | _ => false end.

Definition is_upsert (e : Event) : bool :=
  match e with EvUpdateSearchCount _ _ => true | _ => false end.

Definition is_refresh (e : Event) : bool :=
  match e with EvGetTrendingMovies => true | _ => false end.

Definition is_console_error (e : Event) : bool :=
  match e with EvConsoleError _ => true | _ => false end.

Definition fetches (l : list Event) : list Event := filter is_fetch l.
Definition upserts (l : list Event) : list Event := filter is_upsert l.
Definition refreshes (l : list Event) : list Event := filter is_refresh l.
Definition console_errors (l : list Event) : list Event := filter is_console_error l.

(** The calls into the trending tracker, in order. *)
Definition trending_calls (l : list Event) : list Event :=
  filter (fun e => is_upsert e || is_refresh e) l.

End Log.

(* ================================================================== *)
(** ** Vocabulary of the properties *)

Import App Ui Log.

(** What becomes of the request of [fetchMovies query pageNumber]:
    nothing when the term does not encode, and otherwise the way the
    catalog settles it. *)
Definition sent (w : World) (query : string) (pageNumber : Z) :
    option Tmdb.FetchResult :=
  if sendable query then Some (http w (endpoint query pageNumber)) else None.

(** The request of [fetchMovies query pageNumber] goes out and the
    catalog settles it with [r]. *)
Definition settles (w : World) (query : string) (pageNumber : Z)
    (r : Tmdb.FetchResult) : Prop :=
  sent w query pageNumber = Some r.

(** The catalog answers the request of [fetchMovies query pageNumber]
    with a 2xx response whose body parses to [data]. *)
Definition answers (w : World) (query : string) (pageNumber : Z)
    (data : Tmdb.Payload) : Prop :=
  settles w query pageNumber
    (Tmdb.Responded {| Tmdb.ok := true; Tmdb.json := Normal data |}).

(** The catalog requests a call makes: one, or none when its term does
    not encode. *)
Definition request_of (query : string) (pageNumber : Z) : list Event :=
  if sendable query then [EvFetch (endpoint query pageNumber)] else [].

(** The body does not carry the failure flag: [data.Response === 'False']
    is false. *)
Definition successful (data : Tmdb.Payload) : Prop :=
  strict_eq (Tmdb.Response data) "False" = false.

(** The request fails at the transport or HTTP level: [fetch] rejects,
    or the response has [ok] false. *)
Definition transport_failure (r : Tmdb.FetchResult) : Prop :=
  match r with
  | Tmdb.Rejected _ => True
  | Tmdb.Responded response => Tmdb.ok response = false
  end.

(** The same catalog, with a trending store that never fails. *)
Definition calm (w : World) : World :=
  {| http := http w;
     lookup_fails := false;
     write_fails := false;
     list_fails := false |}.

(** The part of the state the search / browse view shows: everything
    but the trending list. *)
Definition browse (s : State) :
    string * string * list Tmdb.Movie * string * bool * Z * bool :=
  (debouncedSearchTerm s, searchTerm s, movieList s, errorMessage s,
   isLoading s, page s, hasMore s).

(** The outgoing calls of a log: catalog requests and trending calls. *)
Definition calls (l : list Event) : list Event :=
  filter (fun e => is_fetch e || is_upsert e || is_refresh e) l.

(** Viewport bottom within 300 pixels of document bottom, as
    [handleScroll] computes it. *)
Definition near_bottom (vp : Viewport) : Prop :=
  offsetHeight vp - 300 <= innerHeight vp + scrollTop vp.

(** Counts never increase along an ordered list. *)
Fixpoint descending (ds : list Db.Document) : Prop :=
  match ds with
  | [] => True
  | d :: rest =>
      match rest with
      | [] => True
      | e :: _ => Db.count e <= Db.count d
      end /\ descending rest
  end.

(** *** Concrete scenarios *)

Module Scenario.

Definition movieA : Tmdb.Movie :=
  {| Tmdb.id := 268; Tmdb.title := "Batman"; Tmdb.poster_path := "/a.jpg" |}.
Definition movieB : Tmdb.Movie :=
  {| Tmdb.id := 272; Tmdb.title := "Batman Begins"; Tmdb.poster_path := "/b.jpg" |}.
Definition movieC : Tmdb.Movie :=
  {| Tmdb.id := 155; Tmdb.title := "The Dark Knight"; Tmdb.poster_path := "/c.jpg" |}.

(** [{results: [movieA, movieB], page: 1, total_pages: 5}] *)
Definition first_page : Tmdb.Payload :=
  {| Tmdb.Response := None; Tmdb.Error := None;
     Tmdb.page := Some 1; Tmdb.total_pages := Some 5;
     Tmdb.results := Some [movieA; movieB] |}.

(** [{results: [movieC], page: 2, total_pages: 5}] *)
Definition second_page : Tmdb.Payload :=
  {| Tmdb.Response := None; Tmdb.Error := None;
     Tmdb.page := Some 2; Tmdb.total_pages := Some 5;
     Tmdb.results := Some [movieC] |}.

(** [{Response: "False", Error: "Invalid API key"}] *)
Definition invalid_key : Tmdb.Payload :=
  {| Tmdb.Response := Some "False"; Tmdb.Error := Some "Invalid API key";
     Tmdb.page := None; Tmdb.total_pages := None;
     Tmdb.results := None |}.

Definition respond (data : Tmdb.Payload) : Tmdb.FetchResult :=
  Tmdb.Responded {| Tmdb.ok := true; Tmdb.json := Normal data |}.

(** A catalog that serves the two pages above, and a healthy store. *)
Definition online : World :=
  {| http := fun e =>
       match e with
       | Tmdb.SearchMovie _ 2 | Tmdb.DiscoverMovie 2 => respond second_page
       | _ => respond first_page
       end;
     lookup_fails := false; write_fails := false; list_fails := false |}.

(** The same catalog while every store operation fails. *)
Definition store_down : World :=
  {| http := http online;
     lookup_fails := true; write_fails := true; list_fails := true |}.

(** No network: every request is rejected. *)
Definition offline : World :=
  {| http := fun _ => Tmdb.Rejected "TypeError: Failed to fetch";
     lookup_fails := false; write_fails := false; list_fails := false |}.

(** The catalog refuses the key. *)
Definition unauthorized : World :=
  {| http := fun _ => respond invalid_key;
     lookup_fails := false; write_fails := false; list_fails := false |}.

Definition empty_store : Db.Store :=
  {| Db.documents := []; Db.next_id := 0%nat |}.

(** The user has typed "batman", the first page is on screen, an old
    error is still set. *)
Definition browsing : Sys :=
  {| ui := {| debouncedSearchTerm := "batman";
              searchTerm := "batman";
              movieList := [movieA; movieB];
              errorMessage := "";
              isLoading := false;
              trendingMovies := [];
              page := 1;
              hasMore := true |};
     db := empty_store;
     in_flight := [] |}.

(** Three pages in, the user has just typed a new term and an error
    from an earlier request is showing. *)
Definition retyped : Sys :=
  {| ui := {| debouncedSearchTerm := "batman";
              searchTerm := "dune";
              movieList := [movieA; movieB; movieC];
              errorMessage := "Error fetching movies. Please try again later.";
              isLoading := false;
              trendingMovies := [];
              page := 3;
              hasMore := false |};
     db := empty_store;
     in_flight := [] |}.

Definition at_bottom : Viewport :=
  {| innerHeight := 800; scrollTop := 1000; offsetHeight := 2000 |}.

End Scenario.

(* ================================================================== *)
(** ** What [App] renders *)

Module View.

(** One [<li>] of the trending list: [key={movie.$id}], the rank
    [{index + 1}], and the poster with its [alt] text. *)
Record TrendingItem : Type := {
  key : nat;
  rank : Z;
  src : string;
  alt : string
}.

(** The trending section: [trendingMovies.length === 0 ? <p>No trending
    movies yet</p> : <ul>...</ul>]. *)
Inductive Trending : Type :=
| NoTrendingYet
| Ranked (items : list TrendingItem).

(** The "All Movies" section:
    [errorMessage ? <p>{errorMessage}</p>
                  : <> <ul>cards</ul> {isLoading && spinner}
                       {!hasMore && movieList.length > 0 && <p>No more movies to load</p>} </>]. *)
Inductive Movies : Type :=
| ErrorText (message : string)
| Cards (cards : list Tmdb.Movie) (spinner : bool) (no_more : bool).

(** [trendingMovies.map((movie, index) => <li>...{index + 1}...</li>)],
    from position [index] on. *)
Fixpoint items_from (index : Z) (docs : list Db.Document) : list TrendingItem :=
  match docs with
  | [] => []
  | movie :: rest =>
      {| key := Db.id movie;
         rank := index + 1;
         src := Db.poster_url movie;
         alt := Db.searchTerm movie |} :: items_from (index + 1) rest
  end.

Definition trending_section (s : State) : Trending :=
  if Z.of_nat (List.length (trendingMovies s)) =? 0 then NoTrendingYet
  else Ranked (items_from 0 (trendingMovies s)).

Definition movies_section (s : State) : Movies :=
  if truthy (errorMessage s) then ErrorText (errorMessage s)
  else
    Cards (movieList s)
          (isLoading s)
          (negb (hasMore s) && (0 <? Z.of_nat (List.length (movieList s)))).

End View.

(* ================================================================== *)
(** ** The [Card] component of the first version of [App.jsx] *)

Module Card.

(** The two [useState] cells of a card. *)
Record State : Type := {
  count : Z;
  hasLiked : bool
}.

Definition initial : State := {| count := 0; hasLiked := false |}.

(** Where a click lands: on the card outside the button, or on the
    button, which is a child of the card. *)
Inductive Click : Type :=
| OnCard
| OnButton.

(** [`${title} has been liked: ${hasLiked}`] *)
Definition liked_line (title : string) (liked : bool) : string :=
  title ++ " has been liked: " ++ (if liked then "true" else "false").

(** [useEffect(() => console.log(...), [hasLiked])] after a render:
    it runs when [hasLiked] differs from the render before. *)
Definition liked_effect (title : string) (before after : bool) : list string :=
  if Bool.eqb before after then [] else [liked_line title after].

(** First render: the effect runs once. *)
Definition mount (title : string) : State * list string :=
  (initial, [liked_line title (hasLiked initial)]).

(** A click.  The card's handler is [setCount(count + 1)]; the button's
    is [setHasLiked(!hasLiked)], and the click then bubbles to the card,
    whose handler runs too.  The result is the next state and the lines
    the effect logs after the render. *)
Definition click (title : string) (c : Click) (s : State) : State * list string :=
  let s' :=
    match c with
    | OnCard => {| count := count s + 1; hasLiked := hasLiked s |}
    | OnButton => {| count := count s + 1; hasLiked := negb (hasLiked s) |}
    end in
  (s', liked_effect title (hasLiked s) (hasLiked s')).

(** A run of clicks, with everything logged on the way. *)
Fixpoint clicks (title : string) (cs : list Click) (s : State) : State * list string :=
  match cs with
  | [] => (s, [])
  | c :: rest =>
      let '(s', lines) := click title c s in
      let '(s'', lines') := clicks title rest s' in
      (s'', (lines ++ lines')%list)
  end.

(** [{hasLiked ? 'Liked' : 'Like'}] *)
Definition button_label (s : State) : string :=
  if hasLiked s then "Liked" else "Like".

Definition is_like (c : Click) : bool :=
  match c with OnButton => true | OnCard => false end.

End Card.

(* ================================================================== *)
(** ** The event loop around [App] *)

Module Loop.

(** What can happen to the mounted component.  [Render] is a render
    with the effects it runs; the other inputs are events, which may
    come in any number between two renders. *)
Inductive Input : Type :=
| Scroll (vp : Viewport)
| Keystroke (text : string)
| DebounceFires
| Answer (w : World) (n : nat) (r : Tmdb.FetchResult)
| Render.

(** The pending state, and the latest render: the one whose constants
    the registered listeners and the timer callback read. *)
Record Config : Type := {
  sys : Sys;
  shown : State
}.

(** Each input runs its handler on the pending state, with calls left
    suspended at their request; [Answer w n r] settles the request of
    the [n]-th waiting call with [r] and follows that call to its
    [finally], while the store behaves as [w] says. *)
Definition handler (c : Config) (i : Input) : M unit :=
  match i with
  | Scroll vp => handleScroll (shown c) vp
  | Keystroke text => on_input text
  | DebounceFires => setDebouncedSearchTerm (searchTerm (shown c))
  | Answer w n r => on_response w n r
  | Render => effects fetchMovies_begin (shown c) (ui (sys c))
  end.

Definition step (c : Config) (i : Input) : Config :=
  {| sys := state (handler c i (sys c));
     shown := match i with
              | Render => ui (sys c)
              | _ => shown c
              end |}.

(** The component right after its first render and the effects of it. *)
Definition started (store : Db.Store) : Config :=
  {| sys := state (first_effects fetchMovies_begin initial (boot store));
     shown := initial |}.

Definition run (inputs : list Input) (c : Config) : Config :=
  fold_left step inputs c.

(** What the loop keeps true between two inputs. *)
Definition consistent (c : Config) : Prop :=
  1 <= page (ui (sys c)) /\
  1 <= page (shown c) /\
  Forall (fun call => 1 <= call_page call) (in_flight (sys c)) /\
  (isLoading (ui (sys c)) = true -> errorMessage (ui (sys c)) = "").

End Loop.

(** *** Traces of the mounted component *)

Module Trace.




(** The first page of "batman" on screen, rendered, nothing pending. *)
Definition settled : Loop.Config :=
  {| Loop.sys := Scenario.browsing; Loop.shown := ui Scenario.browsing |}.

End Trace.

(** *** More scenarios *)

Module Edge.

(** [{page: 5, total_pages: 5, results: [movieC]}]: the last page. *)
Definition last_page : Tmdb.Payload :=
  {| Tmdb.Response := None; Tmdb.Error := None;
     Tmdb.page := Some 5; Tmdb.total_pages := Some 5;
     Tmdb.results := Some [Scenario.movieC] |}.

(** [{page: 1, total_pages: 5}]: a body without [results]. *)
Definition no_results : Tmdb.Payload :=
  {| Tmdb.Response := None; Tmdb.Error := None;
     Tmdb.page := Some 1; Tmdb.total_pages := Some 5;
     Tmdb.results := None |}.


(** A term that does not encode: the single code unit U+D800. *)
Definition lone_surrogate : string :=
  String (ascii_of_N 237) (String (ascii_of_N 160) (String (ascii_of_N 128) EmptyString)).

Definition world_of (r : Tmdb.FetchResult) : World :=
  {| http := fun _ => r;
     lookup_fails := false; write_fails := false; list_fails := false |}.

(** A 2xx response whose body is not JSON. *)
Definition garbled : Tmdb.FetchResult :=
  Tmdb.Responded {| Tmdb.ok := true;
                    Tmdb.json := Throw "SyntaxError: Unexpected token < in JSON" |}.

End Edge.

(* ================================================================== *)
(** ** Proof tools *)

Arguments endpoint : simpl never.
Arguments sendable : simpl never.
Arguments or_else : simpl never.

Ltac open_handlers :=
  unfold on_response, on_debounce, on_input, mount,
    when_page_changed, first_effects, effects,
    page_effect, debouncedSearchTerm_effect, handleScroll,
    fetchMovies, fetchMovies_begin, build_endpoint,
    fetchMovies_resume, fetchMovies_then,
    fetchMovies_catch, loadTrendingMovies, is_fresh_search_with_results,
    results_length, first_result, json, fetch, settled,
    Appwrite.updateSearchCount, Appwrite.getTrendingMovies,
    Appwrite.listDocuments_equal, Appwrite.updateDocument,
    Appwrite.createDocument, Appwrite.listDocuments_top,
    setMovieList_from, setPage_from,
    setDebouncedSearchTerm, setSearchTerm, setMovieList, setErrorMessage,
    setIsLoading, setTrendingMovies, setPage, setHasMore,
    console_error, bind, after, try_catch, try_finally, ret, throw, emit,
    read, setState, read_db, write_db, suspend, take.

(** One branching point of a handler: split on what decides it. *)
Ltac path_step :=
  match goal with
  | |- context [sendable ?q] => destruct (sendable q) eqn:?
  | |- context [http ?w ?e] =>
      destruct (http w e) as [? | [[|] [? | ?]]] eqn:?
  | |- context [strict_eq ?x ?l] => destruct (strict_eq x l) eqn:?
  | |- context [truthy ?q] => destruct (truthy q) eqn:?
  | |- context [?p =? 1] => destruct (p =? 1) eqn:?
  | |- context [Tmdb.results ?d] =>
      destruct (Tmdb.results d) as [[| ? ?] |] eqn:?
  | |- context [lookup_fails ?w] => destruct (lookup_fails w) eqn:?
  | |- context [write_fails ?w] => destruct (write_fails w) eqn:?
  | |- context [list_fails ?w] => destruct (list_fails w) eqn:?
  | |- context [Db.lookup ?t ?d] => destruct (Db.lookup t d) eqn:?
  end; cbn.

Ltac all_paths := open_handlers; cbn; repeat path_step.

(** Enter [fetchMovies] on the path where the catalog answered. *)
Lemma settles_inv w query pageNumber r :
  settles w query pageNumber r ->
  sendable query = true /\ http w (endpoint query pageNumber) = r.
Proof.
  unfold settles, sent. destruct (sendable query); [| discriminate].
  intro H. split; [reflexivity | now inversion H].
Qed.

Ltac answered Hw :=
  let Hsend := fresh "Hsend" in
  unfold answers in Hw; apply settles_inv in Hw; destruct Hw as [Hsend Hw];
  open_handlers; cbn; rewrite ?Hsend; cbn; rewrite Hw; cbn.

Lemma truthy_nonempty (s : string) : truthy s = true <-> s <> "".
Proof.
  destruct s; cbn; split; intro H; try reflexivity; try discriminate.
  now elim H.
Qed.

Lemma strict_eq_spec (x : option string) (lit : string) :
  strict_eq x lit = true <-> x = Some lit.
Proof.
  destruct x as [s |]; cbn.
  - rewrite String.eqb_eq. split; intro H; [now subst | now inversion H].
  - split; discriminate.
Qed.

(** *** Facts about [fetchMovies] that hold on every path *)

(** [fetchMovies] never throws: its [catch] covers the whole body. *)
Lemma fetchMovies_returns w query pageNumber s :
  value (fetchMovies w query pageNumber s) = Normal tt.
Proof. all_paths; reflexivity. Qed.

(** Its catalog requests are the one for its arguments, or none when
    its term does not encode. *)
Lemma fetchMovies_fetches w query pageNumber s :
  fetches (log (fetchMovies w query pageNumber s)) =
  request_of query pageNumber.
Proof. unfold request_of. all_paths; reflexivity. Qed.

(** It never writes the page number or either search term, and it
    always leaves the loading flag cleared. *)
Lemma fetchMovies_frame w query pageNumber s :
  page (ui (state (fetchMovies w query pageNumber s))) = page (ui s) /\
  debouncedSearchTerm (ui (state (fetchMovies w query pageNumber s))) =
    debouncedSearchTerm (ui s) /\
  searchTerm (ui (state (fetchMovies w query pageNumber s))) = searchTerm (ui s) /\
  isLoading (ui (state (fetchMovies w query pageNumber s))) = false.
Proof. all_paths; repeat split; reflexivity. Qed.

(** Where [fetchMovies] reads [data.results[0]] the array is not empty:
    the guard before it has seen a positive length. *)
Lemma first_result_in_range query data pageNumber s :
  value (is_fresh_search_with_results query data pageNumber s) = Normal true ->
  exists movie rest,
    Tmdb.results data = Some (movie :: rest) /\
    first_result data s = {| value := Normal movie; state := s; log := [] |}.
Proof.
  unfold is_fresh_search_with_results, results_length, first_result,
    bind, after, ret, throw.
  destruct (truthy query); cbn; [| discriminate].
  destruct (Tmdb.results data) as [[| movie rest] |]; cbn; try discriminate.
  intros _. now exists movie, rest.
Qed.

(* ================================================================== *)
(** ** Catalog failures *)

(** C2, as amended.  When the catalog request fails at the transport or
    HTTP level (the request is rejected, or the status is not 2xx),
    [fetchMovies] logs the failure, sets the error message to the
    generic text and leaves the movie list as it was, on every page,
    the first included. *)
Theorem transport_failure_sets_generic_error_and_keeps_list
    w query pageNumber s :
  transport_failure (http w (endpoint query pageNumber)) ->
  errorMessage (ui (state (fetchMovies w query pageNumber s))) =
    "Error fetching movies. Please try again later." /\
  movieList (ui (state (fetchMovies w query pageNumber s))) = movieList (ui s) /\
  console_errors (log (fetchMovies w query pageNumber s)) <> [].
Proof.
  unfold transport_failure. intro H.
  open_handlers; cbn.
  destruct (sendable query); cbn; [| repeat split; discriminate].
  destruct (http w (endpoint query pageNumber)) as [e | [okay body]]; cbn in *.
  - repeat split; discriminate.
  - subst okay; cbn. repeat split; discriminate.
Qed.

Lemma transport_failure_sets_generic_error_and_keeps_list_witness :
  transport_failure
    (http Scenario.offline (endpoint "batman" 2)) /\
  errorMessage (ui (state (fetchMovies Scenario.offline "batman" 2 Scenario.browsing))) =
    "Error fetching movies. Please try again later." /\
  movieList (ui (state (fetchMovies Scenario.offline "batman" 2 Scenario.browsing))) =
    [Scenario.movieA; Scenario.movieB].
Proof.
  split; [exact I |].
  pose proof (transport_failure_sets_generic_error_and_keeps_list
                Scenario.offline "batman" 2 Scenario.browsing I) as [He [Hl _]].
  split; [exact He | exact Hl].
Defined.

(** C2, as stated, fails on a fresh search: with the first page of
    "batman" on screen and the network down, [fetchMovies "batman" 1]
    leaves both movies in the list instead of clearing it. *)
Lemma fresh_search_transport_failure_does_not_clear_list :
  transport_failure (http Scenario.offline (endpoint "batman" 1)) /\
  movieList (ui (state (fetchMovies Scenario.offline "batman" 1 Scenario.browsing))) =
    [Scenario.movieA; Scenario.movieB] /\
  movieList (ui (state (fetchMovies Scenario.offline "batman" 1 Scenario.browsing))) <> [].
Proof.
  split; [exact I |]. split; [reflexivity | discriminate].
Qed.

(** C6.  When a 2xx response carries [Response: "False"], the error
    message becomes the payload's [Error] text when it has one, and
    "Failed to fetch movies" when it has none, and the movie list
    becomes empty. *)
Theorem flagged_response_shows_its_message_and_clears_list
    w query pageNumber s data :
  answers w query pageNumber data ->
  Tmdb.Response data = Some "False" ->
  errorMessage (ui (state (fetchMovies w query pageNumber s))) =
    or_else (Tmdb.Error data) "Failed to fetch movies" /\
  (forall message, Tmdb.Error data = Some message -> message <> "" ->
     errorMessage (ui (state (fetchMovies w query pageNumber s))) = message) /\
  (Tmdb.Error data = None ->
     errorMessage (ui (state (fetchMovies w query pageNumber s))) =
       "Failed to fetch movies") /\
  movieList (ui (state (fetchMovies w query pageNumber s))) = [].
Proof.
  intros Hw Hflag.
  apply strict_eq_spec in Hflag.
  answered Hw. rewrite Hflag. cbn.
  repeat split.
  - intros message He Hne. rewrite He. unfold or_else.
    apply truthy_nonempty in Hne. now rewrite Hne.
  - intros He. now rewrite He.
Qed.

Lemma flagged_response_shows_its_message_and_clears_list_witness :
  answers Scenario.unauthorized "batman" 1 Scenario.invalid_key /\
  Tmdb.Response Scenario.invalid_key = Some "False" /\
  errorMessage (ui (state (fetchMovies Scenario.unauthorized "batman" 1 Scenario.browsing))) =
    "Invalid API key" /\
  movieList (ui (state (fetchMovies Scenario.unauthorized "batman" 1 Scenario.browsing))) = [].
Proof.
  split; [reflexivity |]. split; [reflexivity |].
  pose proof (flagged_response_shows_its_message_and_clears_list
                Scenario.unauthorized "batman" 1 Scenario.browsing
                Scenario.invalid_key eq_refl eq_refl) as [_ [Hm [_ Hl]]].
  split; [| exact Hl].
  apply Hm; [reflexivity | discriminate].
Defined.

(** C10.  When a 2xx response carries [Response: "False"], [fetchMovies]
    writes nothing but the error message, the movie list and the loading
    flag: the page number, the "more pages" flag, both search terms and
    the trending list keep their values, the loading flag ends cleared,
    the trending store is untouched, and neither the trending update
    nor the trending retrieval is called. *)
Theorem flagged_response_frame w query pageNumber s data :
  answers w query pageNumber data ->
  Tmdb.Response data = Some "False" ->
  hasMore (ui (state (fetchMovies w query pageNumber s))) = hasMore (ui s) /\
  page (ui (state (fetchMovies w query pageNumber s))) = page (ui s) /\
  debouncedSearchTerm (ui (state (fetchMovies w query pageNumber s))) =
    debouncedSearchTerm (ui s) /\
  searchTerm (ui (state (fetchMovies w query pageNumber s))) = searchTerm (ui s) /\
  trendingMovies (ui (state (fetchMovies w query pageNumber s))) =
    trendingMovies (ui s) /\
  isLoading (ui (state (fetchMovies w query pageNumber s))) = false /\
  db (state (fetchMovies w query pageNumber s)) = db s /\
  trending_calls (log (fetchMovies w query pageNumber s)) = [] /\
  log (fetchMovies w query pageNumber s) =
    [ EvSet (SetIsLoading true); EvSet (SetErrorMessage "");
      EvFetch (endpoint query pageNumber);
      EvSet (SetErrorMessage (or_else (Tmdb.Error data) "Failed to fetch movies"));
      EvSet (SetMovieList []);
      EvSet (SetIsLoading false) ].
Proof.
  intros Hw Hflag.
  apply strict_eq_spec in Hflag.
  answered Hw. rewrite Hflag. cbn.
  repeat split.
Qed.

Lemma flagged_response_frame_witness :
  answers Scenario.unauthorized "dune" 1 Scenario.invalid_key /\
  Tmdb.Response Scenario.invalid_key = Some "False" /\
  hasMore (ui (state (fetchMovies Scenario.unauthorized "dune" 1 Scenario.retyped))) = false /\
  page (ui (state (fetchMovies Scenario.unauthorized "dune" 1 Scenario.retyped))) = 3 /\
  trending_calls (log (fetchMovies Scenario.unauthorized "dune" 1 Scenario.retyped)) = [].
Proof.
  split; [reflexivity |]. split; [reflexivity |].
  pose proof (flagged_response_frame
                Scenario.unauthorized "dune" 1 Scenario.retyped
                Scenario.invalid_key eq_refl eq_refl)
    as [Hm [Hp [_ [_ [_ [_ [_ [Ht _]]]]]]]].
  split; [exact Hm |]. split; [exact Hp | exact Ht].
Defined.

(* ================================================================== *)
(** ** Pagination *)

(** C4.  After a successful catalog response, the movie list is the
    response's result array when the requested page is 1, and the prior
    list followed by the response's result array, in that order, when
    the requested page is greater than 1.  (An absent [results] counts
    as the empty array: [data.results || []].)  The prior list is the
    list the response finds: the same holds when the call was suspended
    and resumes on any later state. *)
Theorem first_page_replaces_later_pages_append w query pageNumber s data :
  answers w query pageNumber data ->
  successful data ->
  (pageNumber = 1 ->
     movieList (ui (state (fetchMovies w query pageNumber s))) =
       Tmdb.results_or_empty data) /\
  (1 < pageNumber ->
     movieList (ui (state (fetchMovies w query pageNumber s))) =
       (movieList (ui s) ++ Tmdb.results_or_empty data)%list) /\
  (forall rs, Tmdb.results data = Some rs -> Tmdb.results_or_empty data = rs) /\
  (forall s',
     movieList
       (ui (state (fetchMovies_resume w
                     {| call_query := query; call_page := pageNumber |}
                     (http w (endpoint query pageNumber)) s'))) =
     if pageNumber =? 1 then Tmdb.results_or_empty data
     else (movieList (ui s') ++ Tmdb.results_or_empty data)%list).
Proof.
  unfold successful. intros Hw Hok.
  split; [| split; [| split]].
  - intros ->. answered Hw. rewrite Hok. cbn.
    unfold Tmdb.results_or_empty. repeat path_step; reflexivity.
  - intros Hp. apply Z.lt_neq, not_eq_sym, Z.eqb_neq in Hp.
    answered Hw. rewrite Hok. cbn. rewrite !Hp. cbn.
    unfold Tmdb.results_or_empty. repeat path_step; reflexivity.
  - intros rs Hrs. unfold Tmdb.results_or_empty. now rewrite Hrs.
  - intros s'. answered Hw. rewrite Hok. cbn.
    unfold Tmdb.results_or_empty. repeat path_step; reflexivity.
Qed.

Lemma first_page_replaces_later_pages_append_witness :
  answers Scenario.online "batman" 2 Scenario.second_page /\
  successful Scenario.second_page /\
  movieList (ui (state (fetchMovies Scenario.online "batman" 2 Scenario.browsing))) =
    [Scenario.movieA; Scenario.movieB; Scenario.movieC].
Proof.
  split; [reflexivity |]. split; [reflexivity |].
  pose proof (first_page_replaces_later_pages_append
                Scenario.online "batman" 2 Scenario.browsing
                Scenario.second_page eq_refl eq_refl) as [_ [Happend _]].
  apply Happend. reflexivity.
Defined.

(** C7.  After a successful catalog response, the "more pages" flag is
    true exactly when the response's page number is strictly less than
    its total page count. *)
Theorem hasMore_iff_page_below_total w query pageNumber s data :
  answers w query pageNumber data ->
  successful data ->
  hasMore (ui (state (fetchMovies w query pageNumber s))) = true <->
  exists n total,
    Tmdb.page data = Some n /\ Tmdb.total_pages data = Some total /\ n < total.
Proof.
  unfold successful. intros Hw Hok.
  assert (Hset : hasMore (ui (state (fetchMovies w query pageNumber s))) =
                 lt (Tmdb.page data) (Tmdb.total_pages data)).
  { answered Hw. rewrite Hok. cbn. repeat path_step; reflexivity. }
  rewrite Hset. unfold lt.
  destruct (Tmdb.page data) as [n |], (Tmdb.total_pages data) as [total |].
  - rewrite Z.ltb_lt. split.
    + intro H. now exists n, total.
    + intros (n' & t' & Hn & Ht & H). inversion Hn; inversion Ht; now subst.
  - split; [discriminate | intros (? & ? & _ & H & _); discriminate].
  - split; [discriminate | intros (? & ? & H & _); discriminate].
  - split; [discriminate | intros (? & ? & H & _); discriminate].
Qed.

Lemma hasMore_iff_page_below_total_witness :
  answers Scenario.online "batman" 1 Scenario.first_page /\
  successful Scenario.first_page /\
  hasMore (ui (state (fetchMovies Scenario.online "batman" 1 Scenario.retyped))) = true.
Proof.
  split; [reflexivity |]. split; [reflexivity |].
  apply (hasMore_iff_page_below_total
           Scenario.online "batman" 1 Scenario.retyped
           Scenario.first_page eq_refl eq_refl).
  exists 1, 5. split; [reflexivity |]. split; [reflexivity | lia].
Defined.

(* ================================================================== *)
(** ** Trending tracker *)

(** The top list is at most [n] records long. *)
Lemma top_at_most (n : nat) (st : Db.Store) :
  (List.length (Db.top n st) <= n)%nat.
Proof. unfold Db.top. apply firstn_le_length. Qed.

Lemma insert_desc_descending d ds :
  descending ds -> descending (Db.insert_desc d ds).
Proof.
  induction ds as [| e rest IH]; cbn; intros H.
  - tauto.
  - destruct H as [Hhead Hrest].
    destruct (Db.count e <? Db.count d) eqn:Hcmp.
    + apply Z.ltb_lt in Hcmp. cbn. repeat split; try tauto; lia.
    + apply Z.ltb_ge in Hcmp. specialize (IH Hrest).
      cbn. split; [| exact IH].
      destruct rest as [| f rest']; cbn in *.
      * lia.
      * destruct (Db.count f <? Db.count d); [lia | tauto].
Qed.

Lemma order_desc_descending ds : descending (Db.order_desc ds).
Proof.
  induction ds as [| d rest IH]; cbn; [exact I |].
  now apply insert_desc_descending.
Qed.

Lemma firstn_descending n ds : descending ds -> descending (firstn n ds).
Proof.
  revert ds. induction n as [| n IH]; intros [| d rest] H; cbn; try exact I.
  destruct H as [Hhead Hrest]. split; [| now apply IH].
  destruct rest as [| e rest']; destruct n; cbn; tauto.
Qed.

(** What the retrieval returns: the largest counts first, ten at most. *)
Lemma top_descending n st : descending (Db.top n st).
Proof. apply firstn_descending, order_desc_descending. Qed.

(** A failing store operation inside [updateSearchCount] never reaches
    the caller: the call completes normally and touches no UI state. *)
Lemma updateSearchCount_swallows w term movie s :
  value (Appwrite.updateSearchCount w term movie s) = Normal tt /\
  ui (state (Appwrite.updateSearchCount w term movie s)) = ui s /\
  (lookup_fails w = true ->
     Appwrite.updateSearchCount w term movie s =
       {| value := Normal tt; state := s;
          log := [ EvUpdateSearchCount term movie;
                   EvConsoleError "AppwriteException: query failed" ] |}).
Proof.
  all_paths; repeat split; try discriminate; destruct s; reflexivity.
Qed.

(** A failing retrieval is caught in [loadTrendingMovies], which logs it
    and changes nothing. *)
Lemma loadTrendingMovies_swallows w s :
  value (loadTrendingMovies w s) = Normal tt /\
  (list_fails w = true ->
     loadTrendingMovies w s =
       {| value := Normal tt; state := s;
          log := [ EvGetTrendingMovies;
                   EvConsoleError
                     "Error fetching trending movies: AppwriteException: list failed" ] |}) /\
  (list_fails w = false ->
     trendingMovies (ui (state (loadTrendingMovies w s))) = Db.top 10 (db s)).
Proof.
  all_paths; repeat split; try discriminate; reflexivity.
Qed.

(** C1.  Whatever fails in the trending store (the lookup, the write,
    the top-list query), the trending update and the trending retrieval
    complete normally and leave the state of the search / browse view as
    it was; and a [fetchMovies] call whose catalog request succeeded
    completes normally with an empty error message, leaves the
    search / browse view in the state a healthy store would have given,
    makes the same trending calls, and shows the failure of a store
    operation in the console log only. *)
Theorem trending_failures_never_reach_the_user
    w query pageNumber s data rs :
  answers w query pageNumber data ->
  successful data ->
  Tmdb.results data = Some rs ->
  (forall term movie s',
     value (Appwrite.updateSearchCount w term movie s') = Normal tt /\
     ui (state (Appwrite.updateSearchCount w term movie s')) = ui s') /\
  (forall s',
     value (loadTrendingMovies w s') = Normal tt /\
     browse (ui (state (loadTrendingMovies w s'))) = browse (ui s')) /\
  value (fetchMovies w query pageNumber s) = Normal tt /\
  errorMessage (ui (state (fetchMovies w query pageNumber s))) = "" /\
  browse (ui (state (fetchMovies w query pageNumber s))) =
    browse (ui (state (fetchMovies (calm w) query pageNumber s))) /\
  trending_calls (log (fetchMovies w query pageNumber s)) =
    trending_calls (log (fetchMovies (calm w) query pageNumber s)) /\
  console_errors (log (fetchMovies (calm w) query pageNumber s)) = [] /\
  (lookup_fails w || write_fails w || list_fails w = true ->
   trending_calls (log (fetchMovies w query pageNumber s)) <> [] ->
   console_errors (log (fetchMovies w query pageNumber s)) <> []).
Proof.
  unfold successful. intros Hw Hok Hrs.
  split; [| split].
  - intros term movie s'.
    destruct (updateSearchCount_swallows w term movie s') as [Hv [Hui _]].
    now split.
  - intros s'. split; [apply loadTrendingMovies_swallows |].
    unfold browse. all_paths; reflexivity.
  - unfold answers in Hw. apply settles_inv in Hw. destruct Hw as [Hsend Hw].
    unfold browse.
    open_handlers; cbn. rewrite Hsend. cbn. rewrite Hw. cbn.
    rewrite Hok, Hrs. cbn.
    unfold Tmdb.results_or_empty. rewrite Hrs.
    destruct rs as [| movie rest]; cbn;
      repeat path_step; repeat split; intros; try discriminate; try reflexivity;
      try (exfalso; congruence).
Qed.

Lemma trending_failures_never_reach_the_user_witness :
  answers Scenario.store_down "batman" 1 Scenario.first_page /\
  successful Scenario.first_page /\
  Tmdb.results Scenario.first_page = Some [Scenario.movieA; Scenario.movieB] /\
  errorMessage (ui (state (fetchMovies Scenario.store_down "batman" 1 Scenario.browsing))) = "" /\
  console_errors (log (fetchMovies Scenario.store_down "batman" 1 Scenario.browsing)) <> [].
Proof.
  split; [reflexivity |]. split; [reflexivity |]. split; [reflexivity |].
  pose proof (trending_failures_never_reach_the_user
                Scenario.store_down "batman" 1 Scenario.browsing
                Scenario.first_page [Scenario.movieA; Scenario.movieB]
                eq_refl eq_refl eq_refl) as [_ [_ [_ [He [_ [_ [_ Hlogged]]]]]]].
  split; [exact He |].
  apply Hlogged; [reflexivity | discriminate].
Defined.

(** C5.  After a successful catalog response: a first-page fetch with a
    non-empty term and at least one result calls the trending update
    exactly once, for that term and the first result, and then the
    trending retrieval exactly once; a fetch for a later page, or with
    an empty term, or with no results, calls neither. *)
Theorem trending_runs_once_per_fresh_search w query pageNumber s data :
  answers w query pageNumber data ->
  successful data ->
  (forall movie rest,
     query <> "" -> pageNumber = 1 -> Tmdb.results data = Some (movie :: rest) ->
     upserts (log (fetchMovies w query pageNumber s)) =
       [EvUpdateSearchCount query movie] /\
     refreshes (log (fetchMovies w query pageNumber s)) = [EvGetTrendingMovies] /\
     trending_calls (log (fetchMovies w query pageNumber s)) =
       [EvUpdateSearchCount query movie; EvGetTrendingMovies]) /\
  (1 < pageNumber \/ query = "" \/ Tmdb.results data = Some [] ->
     upserts (log (fetchMovies w query pageNumber s)) = [] /\
     refreshes (log (fetchMovies w query pageNumber s)) = []).
Proof.
  unfold successful. intros Hw Hok. split.
  - intros movie rest Hq -> Hrs. apply truthy_nonempty in Hq.
    answered Hw. rewrite Hok, Hq, Hrs. cbn.
    repeat path_step; repeat split; reflexivity.
  - intros [Hp | [-> | Hrs]].
    + apply Z.lt_neq, not_eq_sym, Z.eqb_neq in Hp.
      answered Hw. rewrite Hok. cbn. rewrite !Hp. cbn.
      repeat path_step; split; reflexivity.
    + answered Hw. rewrite Hok. cbn.
      repeat path_step; split; reflexivity.
    + answered Hw. rewrite Hok, Hrs. cbn.
      repeat path_step; split; reflexivity.
Qed.

Lemma trending_runs_once_per_fresh_search_witness :
  answers Scenario.online "batman" 1 Scenario.first_page /\
  successful Scenario.first_page /\
  upserts (log (fetchMovies Scenario.online "batman" 1 Scenario.browsing)) =
    [EvUpdateSearchCount "batman" Scenario.movieA] /\
  refreshes (log (fetchMovies Scenario.online "batman" 1 Scenario.browsing)) =
    [EvGetTrendingMovies].
Proof.
  split; [reflexivity |]. split; [reflexivity |].
  pose proof (trending_runs_once_per_fresh_search
                Scenario.online "batman" 1 Scenario.browsing
                Scenario.first_page eq_refl eq_refl) as [Hfresh _].
  destruct (Hfresh Scenario.movieA [Scenario.movieB]) as [Hu [Hr _]];
    [discriminate | reflexivity | reflexivity |].
  split; [exact Hu | exact Hr].
Defined.

(** C3, as amended.  The initial load issues one call only, the catalog
    request for the first discovery page: it does not retrieve the
    trending top list.  Every [fetchMovies] call either makes no
    trending call at all (its calls are its catalog request, when it
    has one), or calls the trending update and, immediately after it,
    the trending retrieval, once each; that retrieval stores the top
    ten records by descending count unless it fails, in which case the
    trending list keeps its value. *)
Theorem trending_retrieval_only_follows_an_update w :
  (forall store,
     calls (log (mount (fetchMovies w) (boot store))) =
       [EvFetch (Tmdb.DiscoverMovie 1)]) /\
  (forall query pageNumber s,
     calls (log (fetchMovies w query pageNumber s)) =
       request_of query pageNumber \/
     exists movie,
       calls (log (fetchMovies w query pageNumber s)) =
         [ EvFetch (endpoint query pageNumber);
           EvUpdateSearchCount query movie;
           EvGetTrendingMovies ] /\
       trendingMovies (ui (state (fetchMovies w query pageNumber s))) =
         if list_fails w then trendingMovies (ui s)
         else Db.top 10 (db (state (fetchMovies w query pageNumber s)))).
Proof.
  split.
  - intros store. unfold boot. open_handlers; cbn.
    change (sendable "") with true. cbn.
    repeat path_step; reflexivity.
  - intros query pageNumber s. unfold request_of.
    all_paths;
      solve [ left; reflexivity
            | right; eexists; split; reflexivity ].
Qed.

(** C3, as stated, fails on the initial load: the first render of the
    app, with the catalog and the store both healthy, never calls the
    trending retrieval. *)
Lemma initial_load_does_not_retrieve_trending :
  refreshes
    (log (mount (fetchMovies Scenario.online) (boot Scenario.empty_store))) = [] /\
  List.length
    (refreshes
       (log (mount (fetchMovies Scenario.online) (boot Scenario.empty_store))))
    <> 1%nat /\
  trendingMovies
    (ui (state (mount (fetchMovies Scenario.online) (boot Scenario.empty_store)))) = [].
Proof.
  split; [reflexivity |]. split; [discriminate | reflexivity].
Qed.

(* ================================================================== *)
(** ** Events: term change and scroll *)

Lemma after_state {A} l (r : Run A) : state (after l r) = state r.
Proof. now destruct r. Qed.

Lemma after_log {A} l (r : Run A) : log (after l r) = (l ++ log r)%list.
Proof. now destruct r. Qed.

Lemma nth_error_last {A} (l : list A) (c : A) :
  nth_error (l ++ [c]) (List.length l) = Some c.
Proof. induction l as [| a l IH]; [reflexivity | exact IH]. Qed.

Lemma remove_last {A} (l : list A) (c : A) :
  (firstn (List.length l) (l ++ [c]) ++ skipn (S (List.length l)) (l ++ [c]))%list = l.
Proof.
  induction l as [| a l IH]; [reflexivity |].
  cbn [List.length app firstn skipn]. cbn [skipn] in IH. now rewrite IH.
Qed.

(** A resumed call never throws, writes neither the page number nor a
    search term, and issues no request. *)
Lemma fetchMovies_resume_frame w c r s :
  value (fetchMovies_resume w c r s) = Normal tt /\
  page (ui (state (fetchMovies_resume w c r s))) = page (ui s) /\
  debouncedSearchTerm (ui (state (fetchMovies_resume w c r s))) =
    debouncedSearchTerm (ui s) /\
  fetches (log (fetchMovies_resume w c r s)) = [] /\
  in_flight (state (fetchMovies_resume w c r s)) = in_flight s.
Proof.
  destruct c as [query pageNumber], r as [e | [[|] [data | e]]];
    all_paths; repeat split; reflexivity.
Qed.

(** A scroll event writes the page number at most, and nothing when the
    render it reads is loading or has no more pages. *)
Lemma handleScroll_cases rendered vp s :
  handleScroll rendered vp s =
    if isLoading rendered || negb (hasMore rendered) then
      {| value := Normal tt; state := s; log := [] |}
    else if offsetHeight vp - 300 <=? innerHeight vp + scrollTop vp then
      {| value := Normal tt;
         state := {| ui := apply (SetPage (page (ui s) + 1)) (ui s);
                     db := db s; in_flight := in_flight s |};
         log := [EvSet (SetPage (page (ui s) + 1))] |}
    else
      {| value := Normal tt; state := s; log := [] |}.
Proof.
  unfold handleScroll, setPage_from, setPage, bind, after, ret, read, setState, emit.
  destruct (isLoading rendered || negb (hasMore rendered)); [reflexivity |].
  destruct (offsetHeight vp - 300 <=? innerHeight vp + scrollTop vp); reflexivity.
Qed.

(** C8.  The debounced-term effect, which runs after every render that
    finds the debounced term changed, sets the page number to 1 (and
    the "more pages" flag to true), and its [fetchMovies] call sets the
    loading flag and clears the error message, all before the catalog
    request for page 1 of the new term is issued; when the term does not
    encode, no request follows, and the call ends with the generic error
    instead.  This holds of the effect on any state, of a render of the
    mounted component that finds the term changed (where the page effect
    may have run before it), and of the debounce timer delivering a new
    term and followed by its renders: there the page number ends at 1,
    the new term is the debounced term, and when the request goes out
    the error message is empty and the call is waiting for its answer.
    Followed to its end, that handler issues no other request and leaves
    the page number at 1. *)
Theorem term_change_resets_page_and_error_before_fetching w s :
  (forall rendered s',
     log (debouncedSearchTerm_effect fetchMovies_begin rendered s') =
       ([ EvSet (SetPage 1);
          EvSet (SetHasMore true);
          EvSet (SetIsLoading true);
          EvSet (SetErrorMessage "") ] ++
        if sendable (debouncedSearchTerm rendered)
        then [EvFetch (endpoint (debouncedSearchTerm rendered) 1)]
        else [ EvConsoleError ("Error fetching movies: " ++ URIError);
               EvSet (SetErrorMessage "Error fetching movies. Please try again later.");
               EvSet (SetIsLoading false) ])%list /\
     page (ui (state (debouncedSearchTerm_effect fetchMovies_begin rendered s'))) = 1) /\
  (forall c,
     debouncedSearchTerm (Loop.shown c) <> debouncedSearchTerm (ui (Loop.sys c)) ->
     exists before,
       log (Loop.handler c Loop.Render (Loop.sys c)) =
         (before ++
          [ EvSet (SetPage 1);
            EvSet (SetHasMore true);
            EvSet (SetIsLoading true);
            EvSet (SetErrorMessage "") ] ++
          if sendable (debouncedSearchTerm (ui (Loop.sys c)))
          then [EvFetch (endpoint (debouncedSearchTerm (ui (Loop.sys c))) 1)]
          else [ EvConsoleError ("Error fetching movies: " ++ URIError);
                 EvSet (SetErrorMessage "Error fetching movies. Please try again later.");
                 EvSet (SetIsLoading false) ])%list /\
       (page (Loop.shown c) = page (ui (Loop.sys c)) -> before = []) /\
       page (ui (Loop.sys (Loop.step c Loop.Render))) = 1) /\
  (searchTerm (ui s) <> debouncedSearchTerm (ui s) ->
   log (on_debounce fetchMovies_begin s) =
     ([ EvSet (SetDebouncedSearchTerm (searchTerm (ui s)));
        EvSet (SetPage 1);
        EvSet (SetHasMore true);
        EvSet (SetIsLoading true);
        EvSet (SetErrorMessage "") ] ++
      if sendable (searchTerm (ui s))
      then [EvFetch (endpoint (searchTerm (ui s)) 1)]
      else [ EvConsoleError ("Error fetching movies: " ++ URIError);
             EvSet (SetErrorMessage "Error fetching movies. Please try again later.");
             EvSet (SetIsLoading false) ])%list /\
   page (ui (state (on_debounce fetchMovies_begin s))) = 1 /\
   debouncedSearchTerm (ui (state (on_debounce fetchMovies_begin s))) =
     searchTerm (ui s) /\
   (sendable (searchTerm (ui s)) = true ->
      errorMessage (ui (state (on_debounce fetchMovies_begin s))) = "" /\
      in_flight (state (on_debounce fetchMovies_begin s)) =
        (in_flight s ++
         [{| call_query := searchTerm (ui s); call_page := 1 |}])%list) /\
   (sendable (searchTerm (ui s)) = false ->
      errorMessage (ui (state (on_debounce fetchMovies_begin s))) =
        "Error fetching movies. Please try again later." /\
      in_flight (state (on_debounce fetchMovies_begin s)) = in_flight s /\
      on_debounce (fetchMovies w) s = on_debounce fetchMovies_begin s) /\
   exists rest,
     log (on_debounce (fetchMovies w) s) =
       (log (on_debounce fetchMovies_begin s) ++ rest)%list /\
     fetches rest = [] /\
     page (ui (state (on_debounce (fetchMovies w) s))) = 1).
Proof.
  split; [| split].
  - intros rendered s'. all_paths; split; reflexivity.
  - intros c Hnew. apply String.eqb_neq in Hnew.
    exists (if page (Loop.shown c) =? page (ui (Loop.sys c)) then []
            else log (page_effect fetchMovies_begin (ui (Loop.sys c)) (Loop.sys c))).
    unfold Loop.step, Loop.handler.
    open_handlers; cbn. rewrite Hnew.
    destruct (page (Loop.shown c) =? page (ui (Loop.sys c))) eqn:Hpage; cbn.
    + repeat path_step; repeat split; reflexivity.
    + apply Z.eqb_neq in Hpage.
      destruct (1 <? page (ui (Loop.sys c))); cbn;
        repeat path_step;
        (split; [reflexivity | split; [intro H; now elim Hpage | reflexivity]]).
  - intro Hnew.
    assert (Hcmp : String.eqb (debouncedSearchTerm (ui s)) (searchTerm (ui s)) = false).
    { apply String.eqb_neq. congruence. }
    open_handlers; cbn. rewrite Hcmp. cbn.
    repeat path_step; repeat split; intros; try discriminate;
      try (eexists; repeat split).
Qed.

Lemma term_change_resets_page_and_error_before_fetching_witness :
  searchTerm (ui Scenario.retyped) <> debouncedSearchTerm (ui Scenario.retyped) /\
  log (on_debounce fetchMovies_begin Scenario.retyped) =
    [ EvSet (SetDebouncedSearchTerm "dune");
      EvSet (SetPage 1);
      EvSet (SetHasMore true);
      EvSet (SetIsLoading true);
      EvSet (SetErrorMessage "");
      EvFetch (Tmdb.SearchMovie "dune" 1) ] /\
  page (ui (state (on_debounce fetchMovies_begin Scenario.retyped))) = 1 /\
  errorMessage (ui (state (on_debounce fetchMovies_begin Scenario.retyped))) = "".
Proof.
  assert (Hnew : searchTerm (ui Scenario.retyped) <>
                 debouncedSearchTerm (ui Scenario.retyped)) by discriminate.
  split; [exact Hnew |].
  destruct (term_change_resets_page_and_error_before_fetching
              Scenario.online Scenario.retyped)
    as [_ [_ Htimer]].
  destruct (Htimer Hnew) as [Hlog [Hpage [_ [Hsent _]]]].
  split; [exact Hlog |]. split; [exact Hpage |].
  exact (proj1 (Hsent eq_refl)).
Defined.




(* ================================================================== *)
(** ** [fetchMovies]: every path *)

(** X1.  A [fetchMovies] call never throws and always ends with the
    loading flag cleared, whatever the catalog and the store do; so
    does a suspended call when it resumes. *)
Theorem fetchMovies_never_throws_and_clears_loading w query pageNumber s :
  value (fetchMovies w query pageNumber s) = Normal tt /\
  isLoading (ui (state (fetchMovies w query pageNumber s))) = false /\
  (forall c r s',
     value (fetchMovies_resume w c r s') = Normal tt /\
     isLoading (ui (state (fetchMovies_resume w c r s'))) = false).
Proof.
  split; [apply fetchMovies_returns |].
  split; [apply fetchMovies_frame |].
  intros [q p] r s'.
  destruct r as [e | [[|] [data | e]]]; all_paths; split; reflexivity.
Qed.

(** X2.  A [fetchMovies] call sends at most one catalog request (there
    is no retry): the discovery request for the page when the term is
    empty, the search request for the term and page when the term is
    not empty and encodes, and none when [encodeURIComponent] throws on
    the term; in that last case the call makes no outgoing call at all,
    logs the [URIError], sets the generic error message and leaves the
    movie list as it was.  The answer to a request never sends another
    one. *)
Theorem fetchMovies_sends_at_most_one_request w query pageNumber s :
  fetches (log (fetchMovies w query pageNumber s)) =
    (if truthy query then
       if well_formed query
       then [EvFetch (Tmdb.SearchMovie query pageNumber)]
       else []
     else [EvFetch (Tmdb.DiscoverMovie pageNumber)]) /\
  (truthy query = true -> well_formed query = false ->
     calls (log (fetchMovies w query pageNumber s)) = [] /\
     console_errors (log (fetchMovies w query pageNumber s)) =
       [EvConsoleError ("Error fetching movies: " ++ URIError)] /\
     errorMessage (ui (state (fetchMovies w query pageNumber s))) =
       "Error fetching movies. Please try again later." /\
     movieList (ui (state (fetchMovies w query pageNumber s))) = movieList (ui s)) /\
  (forall n r s', fetches (log (on_response w n r s')) = []).
Proof.
  split; [| split].
  - rewrite fetchMovies_fetches. unfold request_of, sendable, endpoint.
    destruct (truthy query); [destruct (well_formed query) |]; reflexivity.
  - intros Hq Hbad.
    assert (Hsend : sendable query = false)
      by (unfold sendable; now rewrite Hq).
    open_handlers; cbn. rewrite Hsend. cbn. repeat split.
  - intros n r s'. unfold on_response, bind, take, ret.
    cbn -[fetchMovies_resume].
    destruct (nth_error (in_flight s') n) as [c |]; [| reflexivity].
    rewrite after_log. cbn [app]. apply fetchMovies_resume_frame.
Qed.

Lemma fetchMovies_sends_at_most_one_request_witness :
  truthy Edge.lone_surrogate = true /\
  well_formed Edge.lone_surrogate = false /\
  fetches (log (fetchMovies Scenario.online Edge.lone_surrogate 1 Scenario.browsing)) = [] /\
  errorMessage
    (ui (state (fetchMovies Scenario.online Edge.lone_surrogate 1 Scenario.browsing))) =
    "Error fetching movies. Please try again later." /\
  fetches (log (fetchMovies Scenario.online "batman" 2 Scenario.browsing)) =
    [EvFetch (Tmdb.SearchMovie "batman" 2)].
Proof.
  split; [reflexivity |]. split; [reflexivity |].
  destruct (fetchMovies_sends_at_most_one_request
              Scenario.online Edge.lone_surrogate 1 Scenario.browsing)
    as [Hnone [Hbad _]].
  destruct (Hbad eq_refl eq_refl) as [_ [_ [Herr _]]].
  split; [exact Hnone |]. split; [exact Herr |].
  exact (proj1 (fetchMovies_sends_at_most_one_request
                  Scenario.online "batman" 2 Scenario.browsing)).
Defined.

(** X3.  A [fetchMovies] call never writes the page number, either
    search term or the list of waiting calls; and unless it called the
    trending tracker it leaves the trending list and the trending store
    as they were. *)
Theorem fetchMovies_leaves_pagination_and_terms w query pageNumber s :
  page (ui (state (fetchMovies w query pageNumber s))) = page (ui s) /\
  debouncedSearchTerm (ui (state (fetchMovies w query pageNumber s))) =
    debouncedSearchTerm (ui s) /\
  searchTerm (ui (state (fetchMovies w query pageNumber s))) = searchTerm (ui s) /\
  in_flight (state (fetchMovies w query pageNumber s)) = in_flight s /\
  match trending_calls (log (fetchMovies w query pageNumber s)) with
  | [] =>
      trendingMovies (ui (state (fetchMovies w query pageNumber s))) =
        trendingMovies (ui s) /\
      db (state (fetchMovies w query pageNumber s)) = db s
  | _ :: _ => True
  end.
Proof. all_paths; repeat split; reflexivity. Qed.

(** X5.  A 2xx response whose body has no [results] array: with a
    non-empty term the call reads [data.results.length], which throws,
    so it ends with the generic error message and one console error,
    after it has already stored the "more pages" flag and the list
    (empty on page 1, unchanged on a later page), and it makes no
    trending call; with an empty term nothing throws and the error
    message is empty. *)
Theorem missing_results_fail_only_with_a_term w query pageNumber s data :
  answers w query pageNumber data ->
  successful data ->
  Tmdb.results data = None ->
  hasMore (ui (state (fetchMovies w query pageNumber s))) =
    lt (Tmdb.page data) (Tmdb.total_pages data) /\
  movieList (ui (state (fetchMovies w query pageNumber s))) =
    (if pageNumber =? 1 then [] else movieList (ui s)) /\
  trending_calls (log (fetchMovies w query pageNumber s)) = [] /\
  (query <> "" ->
     errorMessage (ui (state (fetchMovies w query pageNumber s))) =
       "Error fetching movies. Please try again later." /\
     List.length (console_errors (log (fetchMovies w query pageNumber s))) = 1%nat) /\
  (query = "" ->
     errorMessage (ui (state (fetchMovies w query pageNumber s))) = "" /\
     console_errors (log (fetchMovies w query pageNumber s)) = []).
Proof.
  unfold successful. intros Hw Hok Hrs.
  assert (Hlist : forall l : list Tmdb.Movie, (l ++ [])%list = l)
    by (intro l; apply app_nil_r).
  repeat split.
  - answered Hw. rewrite Hok. cbn. repeat path_step; reflexivity.
  - answered Hw. rewrite Hok. cbn. unfold Tmdb.results_or_empty. rewrite Hrs.
    repeat path_step; cbn; rewrite ?Hlist; reflexivity.
  - answered Hw. rewrite Hok. cbn. rewrite Hrs. repeat path_step; reflexivity.
  - apply truthy_nonempty in H.
    answered Hw. rewrite Hok. cbn. rewrite H, Hrs. repeat path_step; reflexivity.
  - apply truthy_nonempty in H.
    answered Hw. rewrite Hok. cbn. rewrite H, Hrs. repeat path_step; reflexivity.
  - subst query. answered Hw. rewrite Hok. cbn. repeat path_step; reflexivity.
  - subst query. answered Hw. rewrite Hok. cbn. repeat path_step; reflexivity.
Qed.

Lemma missing_results_fail_only_with_a_term_witness :
  answers (Edge.world_of (Scenario.respond Edge.no_results)) "batman" 1 Edge.no_results /\
  successful Edge.no_results /\
  Tmdb.results Edge.no_results = None /\
  errorMessage
    (ui (state (fetchMovies (Edge.world_of (Scenario.respond Edge.no_results))
                  "batman" 1 Scenario.browsing))) =
    "Error fetching movies. Please try again later." /\
  movieList
    (ui (state (fetchMovies (Edge.world_of (Scenario.respond Edge.no_results))
                  "batman" 1 Scenario.browsing))) = [].
Proof.
  split; [reflexivity |]. split; [reflexivity |]. split; [reflexivity |].
  pose proof (missing_results_fail_only_with_a_term
                (Edge.world_of (Scenario.respond Edge.no_results))
                "batman" 1 Scenario.browsing Edge.no_results
                eq_refl eq_refl eq_refl) as [_ [Hlist [_ [Hterm _]]]].
  split; [| exact Hlist].
  apply Hterm. discriminate.
Defined.

(** X6.  A request that goes out and is answered by a 2xx response
    whose body does not parse ([response.json()] rejects) ends like a
    transport failure: the parse error is logged
    after the prefix "Error fetching movies: ", the generic error
    message is set, and the movie list, the "more pages" flag, the
    trending list and the trending store keep their values. *)
Theorem unparsable_body_sets_generic_error w query pageNumber s error :
  settles w query pageNumber
    (Tmdb.Responded {| Tmdb.ok := true; Tmdb.json := Throw error |}) ->
  errorMessage (ui (state (fetchMovies w query pageNumber s))) =
    "Error fetching movies. Please try again later." /\
  console_errors (log (fetchMovies w query pageNumber s)) =
    [EvConsoleError ("Error fetching movies: " ++ error)] /\
  movieList (ui (state (fetchMovies w query pageNumber s))) = movieList (ui s) /\
  hasMore (ui (state (fetchMovies w query pageNumber s))) = hasMore (ui s) /\
  trendingMovies (ui (state (fetchMovies w query pageNumber s))) =
    trendingMovies (ui s) /\
  db (state (fetchMovies w query pageNumber s)) = db s.
Proof.
  intro Hw. apply settles_inv in Hw. destruct Hw as [Hsend Hw].
  open_handlers; cbn. rewrite Hsend. cbn. rewrite Hw. cbn. repeat split.
Qed.

Lemma unparsable_body_sets_generic_error_witness :
  settles (Edge.world_of Edge.garbled) "batman" 2
    (Tmdb.Responded {| Tmdb.ok := true;
                       Tmdb.json := Throw "SyntaxError: Unexpected token < in JSON" |}) /\
  errorMessage
    (ui (state (fetchMovies (Edge.world_of Edge.garbled) "batman" 2 Scenario.browsing))) =
    "Error fetching movies. Please try again later." /\
  movieList
    (ui (state (fetchMovies (Edge.world_of Edge.garbled) "batman" 2 Scenario.browsing))) =
    [Scenario.movieA; Scenario.movieB].
Proof.
  split; [reflexivity |].
  pose proof (unparsable_body_sets_generic_error
                (Edge.world_of Edge.garbled) "batman" 2 Scenario.browsing
                "SyntaxError: Unexpected token < in JSON" eq_refl)
    as [He [_ [Hl _]]].
  split; [exact He | exact Hl].
Defined.

(* ================================================================== *)
(** ** The event loop: what every reachable state satisfies *)

Lemma fetchMovies_resume_clears_loading w c r s :
  isLoading (ui (state (fetchMovies_resume w c r s))) = false.
Proof.
  destruct c as [query pageNumber], r as [e | [[|] [data | e]]];
    all_paths; reflexivity.
Qed.

Lemma Forall_without_nth {A} (P : A -> Prop) (n : nat) (l : list A) :
  Forall P l -> Forall P (firstn n l ++ skipn (S n) l)%list.
Proof.
  intro H. rewrite <- (firstn_skipn n l) in H.
  apply Forall_app in H as [Hfirst Hrest].
  apply Forall_app. split; [exact Hfirst |].
  destruct (skipn n l) as [| a rest] eqn:Hskip.
  - assert (Hlen : (List.length l <= n)%nat).
    { apply (f_equal (@List.length A)) in Hskip.
      rewrite length_skipn in Hskip. cbn in Hskip. lia. }
    rewrite skipn_all2 by lia. constructor.
  - replace (skipn (S n) l) with rest.
    + now inversion Hrest.
    + change (S n) with (1 + n)%nat. rewrite <- skipn_skipn, Hskip. reflexivity.
Qed.

Lemma started_consistent store : Loop.consistent (Loop.started store).
Proof.
  unfold Loop.consistent, Loop.started, boot.
  open_handlers; cbn. change (sendable "") with true. cbn. repeat split.
  - lia.
  - lia.
  - repeat constructor. cbn. lia.
Qed.

Lemma step_consistent c i : Loop.consistent c -> Loop.consistent (Loop.step c i).
Proof.
  destruct c as [s shown].
  unfold Loop.consistent, Loop.step, Loop.handler. cbn [Loop.sys Loop.shown].
  intros (Hpage & Hshown & Hcalls & Hclean).
  destruct i as [vp | text | | w n r |].
  - (* scroll *)
    rewrite handleScroll_cases.
    destruct (isLoading shown || negb (hasMore shown));
      [repeat split; assumption |].
    destruct (offsetHeight vp - 300 <=? innerHeight vp + scrollTop vp);
      [| repeat split; assumption].
    cbn. repeat split; try assumption. lia.
  - (* keystroke *)
    open_handlers; cbn. repeat split; assumption.
  - (* the debounce timer *)
    open_handlers; cbn. repeat split; assumption.
  - (* an answer *)
    unfold on_response, bind, take, ret. cbn -[fetchMovies_resume firstn skipn].
    destruct (nth_error (in_flight s) n) as [c |] eqn:Hnth.
    + rewrite after_state.
      match goal with
      | |- context [fetchMovies_resume ?w' ?c' ?r' ?s'] =>
          destruct (fetchMovies_resume_frame w' c' r' s') as (_ & Hp & _ & _ & Hq);
          pose proof (fetchMovies_resume_clears_loading w' c' r' s') as Hl
      end.
      rewrite Hp, Hq, Hl. cbn -[firstn skipn]. repeat split.
      * exact Hpage.
      * exact Hshown.
      * now apply Forall_without_nth.
      * discriminate.
    + apply nth_error_None in Hnth.
      cbn -[firstn skipn]. rewrite firstn_all2, skipn_all2, app_nil_r by lia.
      repeat split; assumption.
  - (* a render and its effects *)
    open_handlers; cbn.
    destruct (page shown =? page (ui s)); cbn;
      destruct (1 <? page (ui s)) eqn:Hlater; cbn;
      destruct (String.eqb (debouncedSearchTerm shown) (debouncedSearchTerm (ui s)));
      cbn; repeat path_step; rewrite ?app_nil_r;
      repeat split; try assumption; try lia; try discriminate;
      try (try apply Z.ltb_lt in Hlater;
           repeat (apply Forall_app; split);
           try assumption; repeat constructor; cbn; lia).
Qed.

Lemma run_consistent inputs c :
  Loop.consistent c -> Loop.consistent (Loop.run inputs c).
Proof.
  revert c. induction inputs as [| i rest IH]; intros c H; [exact H |].
  cbn. apply IH. now apply step_consistent.
Qed.

(** X7.  From the first render on, whatever the user and the catalog
    do and whenever the component renders, the page number never goes
    below 1, neither the pending one nor the rendered one, and every
    call waiting for the catalog was made for a page of at least 1. *)
Theorem page_numbers_stay_positive store inputs :
  1 <= page (ui (Loop.sys (Loop.run inputs (Loop.started store)))) /\
  1 <= page (Loop.shown (Loop.run inputs (Loop.started store))) /\
  Forall (fun c => 1 <= call_page c)
         (in_flight (Loop.sys (Loop.run inputs (Loop.started store)))).
Proof.
  destruct (run_consistent inputs _ (started_consistent store))
    as (H1 & H2 & H3 & _).
  now repeat split.
Qed.

(** X9.  From the first render on, an error message and the loading
    flag never stand together: while the flag is set the error message
    is empty. *)
Theorem no_error_message_while_loading store inputs :
  isLoading (ui (Loop.sys (Loop.run inputs (Loop.started store)))) = false \/
  errorMessage (ui (Loop.sys (Loop.run inputs (Loop.started store)))) = "".
Proof.
  destruct (run_consistent inputs _ (started_consistent store)) as (_ & _ & _ & H).
  destruct (isLoading (ui (Loop.sys (Loop.run inputs (Loop.started store)))));
    [right; now apply H | now left].
Qed.

(* ================================================================== *)
(** ** How the handlers compose *)

Lemma fetchMovies_hasMore w query pageNumber s data :
  answers w query pageNumber data ->
  successful data ->
  hasMore (ui (state (fetchMovies w query pageNumber s))) =
    lt (Tmdb.page data) (Tmdb.total_pages data).
Proof.
  unfold successful. intros Hw Hok.
  answered Hw. rewrite Hok. cbn. repeat path_step; reflexivity.
Qed.

(** X11.  After a successful response whose page number is not below
    its total page count (or which lacks either number), scrolling is
    inert: once a render shows the state that response left, a scroll
    event changes nothing and sends nothing, wherever the viewport is
    and whatever is pending; and neither does the render after it. *)
Theorem scrolling_stops_after_the_last_page w query pageNumber s data :
  answers w query pageNumber data ->
  successful data ->
  lt (Tmdb.page data) (Tmdb.total_pages data) = false ->
  forall vp,
    (forall s',
       handleScroll (ui (state (fetchMovies w query pageNumber s))) vp s' =
         {| value := Normal tt; state := s'; log := [] |}) /\
    (forall c,
       Loop.shown c = ui (state (fetchMovies w query pageNumber s)) ->
       Loop.step c (Loop.Scroll vp) = c) /\
    (forall c,
       Loop.sys c = state (fetchMovies w query pageNumber s) ->
       Loop.shown c = ui (state (fetchMovies w query pageNumber s)) ->
       Loop.run [Loop.Scroll vp; Loop.Render] c = c /\
       log (Loop.handler c (Loop.Scroll vp) (Loop.sys c)) = [] /\
       log (Loop.handler c Loop.Render (Loop.sys c)) = []).
Proof.
  intros Hw Hok Hlast vp.
  assert (Hinert : forall s',
            handleScroll (ui (state (fetchMovies w query pageNumber s))) vp s' =
              {| value := Normal tt; state := s'; log := [] |}).
  { intro s'. rewrite handleScroll_cases.
    rewrite (fetchMovies_hasMore w query pageNumber s data Hw Hok), Hlast.
    now rewrite orb_true_r. }
  assert (Hrender : forall s', effects fetchMovies_begin (ui s') (ui s') s' =
                               {| value := Normal tt; state := s'; log := [] |}).
  { intro s'. unfold effects, bind, after, ret.
    now rewrite Z.eqb_refl, String.eqb_refl. }
  split; [exact Hinert |]. split.
  - intros [s' shown] Hshown. cbn in Hshown. subst shown.
    unfold Loop.step, Loop.handler. cbn [Loop.sys Loop.shown].
    now rewrite Hinert.
  - intros [s' shown] Hsys Hshown. cbn in Hsys, Hshown. subst s' shown.
    unfold Loop.run, Loop.step, Loop.handler. cbn [Loop.sys Loop.shown fold_left].
    rewrite Hinert. cbn [state]. rewrite Hrender. repeat split.
Qed.

Lemma scrolling_stops_after_the_last_page_witness :
  answers (Edge.world_of (Scenario.respond Edge.last_page)) "batman" 5 Edge.last_page /\
  successful Edge.last_page /\
  lt (Tmdb.page Edge.last_page) (Tmdb.total_pages Edge.last_page) = false /\
  log (handleScroll
         (ui (state (fetchMovies (Edge.world_of (Scenario.respond Edge.last_page))
                       "batman" 5 Scenario.browsing)))
         Scenario.at_bottom Scenario.browsing) = [].
Proof.
  split; [reflexivity |]. split; [reflexivity |]. split; [reflexivity |].
  destruct (scrolling_stops_after_the_last_page
              (Edge.world_of (Scenario.respond Edge.last_page))
              "batman" 5 Scenario.browsing Edge.last_page
              eq_refl eq_refl eq_refl Scenario.at_bottom) as [Hinert _].
  now rewrite Hinert.
Defined.



(** What a resumed call stores when the catalog has answered
    successfully. *)
Lemma fetchMovies_resume_stores w query pageNumber s data :
  successful data ->
  movieList
    (ui (state (fetchMovies_resume w
                  {| call_query := query; call_page := pageNumber |}
                  (Tmdb.Responded {| Tmdb.ok := true; Tmdb.json := Normal data |}) s))) =
    (if pageNumber =? 1 then Tmdb.results_or_empty data
     else (movieList (ui s) ++ Tmdb.results_or_empty data)%list) /\
  hasMore
    (ui (state (fetchMovies_resume w
                  {| call_query := query; call_page := pageNumber |}
                  (Tmdb.Responded {| Tmdb.ok := true; Tmdb.json := Normal data |}) s))) =
    lt (Tmdb.page data) (Tmdb.total_pages data) /\
  ((pageNumber =? 1) = false ->
   trending_calls
     (log (fetchMovies_resume w
             {| call_query := query; call_page := pageNumber |}
             (Tmdb.Responded {| Tmdb.ok := true; Tmdb.json := Normal data |}) s)) = []).
Proof.
  unfold successful. intro Hok.
  open_handlers; cbn. rewrite Hok. cbn.
  unfold Tmdb.results_or_empty.
  repeat path_step; repeat split; intros; try discriminate; reflexivity.
Qed.

(** X13.  Infinite scroll, end to end, when nothing else happens in
    between: the component is rendered up to date, idle and with more
    pages; the user scrolls to within 300 pixels of the bottom; the
    component renders; the catalog answers the request of that render's
    page effect, for the next page of the current term, successfully.
    Then the page number has grown by one, the response's results stand
    after the movies already listed, in order and without removing
    duplicates, the "more pages" flag is as the response says, the
    loading flag is clear and the calls that were waiting before are
    still the ones waiting.  The call is for a page above 1, so it
    makes no trending call: the catalog's answer takes it to its end. *)
Theorem scrolling_to_the_bottom_appends_the_next_page w vp c data :
  Loop.shown c = ui (Loop.sys c) ->
  1 <= page (ui (Loop.sys c)) ->
  isLoading (ui (Loop.sys c)) = false ->
  hasMore (ui (Loop.sys c)) = true ->
  near_bottom vp ->
  answers w (debouncedSearchTerm (ui (Loop.sys c))) (page (ui (Loop.sys c)) + 1) data ->
  successful data ->
  fetches (log (Loop.handler (Loop.step c (Loop.Scroll vp)) Loop.Render
                  (Loop.sys (Loop.step c (Loop.Scroll vp))))) =
    [EvFetch (endpoint (debouncedSearchTerm (ui (Loop.sys c)))
                       (page (ui (Loop.sys c)) + 1))] /\
  page (ui (Loop.sys (Loop.run
    [ Loop.Scroll vp; Loop.Render;
      Loop.Answer w (List.length (in_flight (Loop.sys c)))
        (http w (endpoint (debouncedSearchTerm (ui (Loop.sys c)))
                          (page (ui (Loop.sys c)) + 1))) ] c))) =
    page (ui (Loop.sys c)) + 1 /\
  movieList (ui (Loop.sys (Loop.run
    [ Loop.Scroll vp; Loop.Render;
      Loop.Answer w (List.length (in_flight (Loop.sys c)))
        (http w (endpoint (debouncedSearchTerm (ui (Loop.sys c)))
                          (page (ui (Loop.sys c)) + 1))) ] c))) =
    (movieList (ui (Loop.sys c)) ++ Tmdb.results_or_empty data)%list /\
  hasMore (ui (Loop.sys (Loop.run
    [ Loop.Scroll vp; Loop.Render;
      Loop.Answer w (List.length (in_flight (Loop.sys c)))
        (http w (endpoint (debouncedSearchTerm (ui (Loop.sys c)))
                          (page (ui (Loop.sys c)) + 1))) ] c))) =
    lt (Tmdb.page data) (Tmdb.total_pages data) /\
  isLoading (ui (Loop.sys (Loop.run
    [ Loop.Scroll vp; Loop.Render;
      Loop.Answer w (List.length (in_flight (Loop.sys c)))
        (http w (endpoint (debouncedSearchTerm (ui (Loop.sys c)))
                          (page (ui (Loop.sys c)) + 1))) ] c))) = false /\
  in_flight (Loop.sys (Loop.run
    [ Loop.Scroll vp; Loop.Render;
      Loop.Answer w (List.length (in_flight (Loop.sys c)))
        (http w (endpoint (debouncedSearchTerm (ui (Loop.sys c)))
                          (page (ui (Loop.sys c)) + 1))) ] c)) =
    in_flight (Loop.sys c) /\
  trending_calls
    (log (Loop.handler (Loop.run [Loop.Scroll vp; Loop.Render] c)
            (Loop.Answer w (List.length (in_flight (Loop.sys c)))
               (http w (endpoint (debouncedSearchTerm (ui (Loop.sys c)))
                                 (page (ui (Loop.sys c)) + 1))))
            (Loop.sys (Loop.run [Loop.Scroll vp; Loop.Render] c)))) = [].
Proof.
  destruct c as [s shown]. cbn [Loop.sys Loop.shown].
  intros -> Hpage Hidle Hmore Hnear Hw Hok. apply Z.leb_le in Hnear.
  unfold answers in Hw. apply settles_inv in Hw. destruct Hw as [Hsend Hw].
  rewrite Hw.
  assert (Hmoved : (page (ui s) =? page (ui s) + 1) = false)
    by (apply Z.eqb_neq; lia).
  assert (Hlater : (1 <? page (ui s) + 1) = true)
    by (apply Z.ltb_lt; lia).
  assert (Hnext : (page (ui s) + 1 =? 1) = false) by (apply Z.eqb_neq; lia).
  unfold Loop.run, Loop.step, Loop.handler.
  cbn [Loop.sys Loop.shown fold_left].
  rewrite handleScroll_cases, Hidle, Hmore, Hnear. cbn [orb negb state].
  unfold effects, page_effect, fetchMovies_begin, on_response.
  unfold setIsLoading, setErrorMessage, bind, after, ret, emit, setState,
    suspend, take, read.
  cbn -[fetchMovies_resume nth_error firstn skipn].
  rewrite Hmoved, String.eqb_refl, Hlater, Hsend.
  cbn -[fetchMovies_resume nth_error firstn skipn].
  split; [reflexivity |].
  rewrite nth_error_last, remove_last.
  match goal with
  | |- context [fetchMovies_resume w ?call ?r ?s'] =>
      destruct (fetchMovies_resume_frame w call r s') as (_ & Hp & _ & _ & Hq);
      pose proof (fetchMovies_resume_clears_loading w call r s') as Hl;
      destruct (fetchMovies_resume_stores w (debouncedSearchTerm (ui s))
                  (page (ui s) + 1) s' data Hok) as [Hlist [Hflag Hquiet]]
  end.
  rewrite Hnext in Hlist. specialize (Hquiet Hnext).
  destruct (fetchMovies_resume w _ _ _) as [v s2 l2].
  cbn in Hp, Hq, Hl, Hlist, Hflag, Hquiet |- *.
  rewrite Hp, Hq, Hl, Hlist, Hflag, Hquiet. repeat split.
Qed.

Lemma scrolling_to_the_bottom_appends_the_next_page_witness :
  near_bottom Scenario.at_bottom /\
  answers Scenario.online (debouncedSearchTerm (ui (Loop.sys Trace.settled)))
    (page (ui (Loop.sys Trace.settled)) + 1) Scenario.second_page /\
  successful Scenario.second_page /\
  movieList (ui (Loop.sys (Loop.run
    [ Loop.Scroll Scenario.at_bottom; Loop.Render;
      Loop.Answer Scenario.online 0 (Scenario.respond Scenario.second_page) ]
    Trace.settled))) =
    [Scenario.movieA; Scenario.movieB; Scenario.movieC] /\
  page (ui (Loop.sys (Loop.run
    [ Loop.Scroll Scenario.at_bottom; Loop.Render;
      Loop.Answer Scenario.online 0 (Scenario.respond Scenario.second_page) ]
    Trace.settled))) = 2.
Proof.
  assert (Hpage : 1 <= page (ui (Loop.sys Trace.settled))) by (cbn; lia).
  assert (Hnear : near_bottom Scenario.at_bottom) by (unfold near_bottom; cbn; lia).
  split; [exact Hnear |]. split; [reflexivity |]. split; [reflexivity |].
  destruct (scrolling_to_the_bottom_appends_the_next_page
              Scenario.online Scenario.at_bottom Trace.settled
              Scenario.second_page eq_refl Hpage eq_refl eq_refl Hnear
              eq_refl eq_refl)
    as [_ [Hp [Hl _]]].
  split; [exact Hl | exact Hp].
Defined.



(* ================================================================== *)
(** ** What the user sees *)

(** X16.  After a transport or HTTP failure the "All Movies" section
    shows the generic error text and nothing else, although the movie
    list is still in the state; as soon as the next call has sent its
    request, the section shows that kept list again, with the spinner.
    (A next call whose term does not encode sends no request and leaves
    the generic error text.) *)
Theorem failure_hides_the_list_until_the_next_call w query pageNumber s :
  transport_failure (http w (endpoint query pageNumber)) ->
  View.movies_section (ui (state (fetchMovies w query pageNumber s))) =
    View.ErrorText "Error fetching movies. Please try again later." /\
  (forall query' pageNumber',
     View.movies_section
       (ui (state (fetchMovies_begin query' pageNumber'
                     (state (fetchMovies w query pageNumber s))))) =
     if sendable query' then
       View.Cards (movieList (ui s)) true
         (negb (hasMore (ui s)) && (0 <? Z.of_nat (List.length (movieList (ui s)))))
     else View.ErrorText "Error fetching movies. Please try again later.").
Proof.
  unfold transport_failure. intro H.
  assert (Hfinal :
            errorMessage (ui (state (fetchMovies w query pageNumber s))) =
              "Error fetching movies. Please try again later." /\
            movieList (ui (state (fetchMovies w query pageNumber s))) =
              movieList (ui s) /\
            hasMore (ui (state (fetchMovies w query pageNumber s))) = hasMore (ui s)).
  { open_handlers; cbn.
    destruct (sendable query); cbn; [| repeat split].
    destruct (http w (endpoint query pageNumber)) as [e | [okay body]]; cbn in *.
    - repeat split.
    - subst okay; cbn. repeat split. }
  destruct Hfinal as (He & Hl & Hm).
  split.
  - unfold View.movies_section. now rewrite He.
  - intros query' pageNumber'.
    unfold View.movies_section, fetchMovies_begin, build_endpoint, fetchMovies_catch,
      setIsLoading, setErrorMessage, console_error, bind, after, try_catch,
      try_finally, ret, throw, emit, setState, suspend.
    destruct (sendable query'); cbn -[fetchMovies]; [| reflexivity].
    now rewrite Hl, Hm.
Qed.

Lemma failure_hides_the_list_until_the_next_call_witness :
  transport_failure (http Scenario.offline (endpoint "batman" 2)) /\
  View.movies_section
    (ui (state (fetchMovies Scenario.offline "batman" 2 Scenario.browsing))) =
    View.ErrorText "Error fetching movies. Please try again later." /\
  View.movies_section
    (ui (state (fetchMovies_begin "batman" 2
                  (state (fetchMovies Scenario.offline "batman" 2 Scenario.browsing))))) =
    View.Cards [Scenario.movieA; Scenario.movieB] true false.
Proof.
  split; [exact I |].
  destruct (failure_hides_the_list_until_the_next_call
              Scenario.offline "batman" 2 Scenario.browsing I) as [Herr Hback].
  split; [exact Herr | exact (Hback "batman" 2)].
Defined.



Lemma items_from_rank index docs :
  map View.rank (View.items_from index docs) =
  map (fun k => index + Z.of_nat k) (seq 1 (List.length docs)).
Proof.
  revert index. induction docs as [| d rest IH]; intro index; [reflexivity |].
  cbn [View.items_from map List.length seq View.rank].
  rewrite IH, <- (seq_shift (List.length rest) 1), map_map.
  replace (index + Z.of_nat 1) with (index + 1) by lia.
  f_equal. apply map_ext. intro k. lia.
Qed.

Lemma items_from_fields index docs :
  map View.key (View.items_from index docs) = map Db.id docs /\
  map View.src (View.items_from index docs) = map Db.poster_url docs /\
  map View.alt (View.items_from index docs) = map Db.searchTerm docs.
Proof.
  revert index. induction docs as [| d rest IH]; intro index; [now repeat split |].
  destruct (IH (index + 1)) as (Hk & Hs & Ha).
  cbn. now rewrite Hk, Hs, Ha.
Qed.

(** X18.  The trending section shows "No trending movies yet" exactly
    when the trending list is empty; otherwise it shows one item per
    record, in the list's order, ranked 1, 2, 3, ... and carrying the
    record's identifier as key, its poster as image and its search term
    as alternative text. *)
Theorem trending_items_are_ranked_from_one s :
  match View.trending_section s with
  | View.NoTrendingYet => trendingMovies s = []
  | View.Ranked items =>
      trendingMovies s <> [] /\
      map View.rank items =
        map Z.of_nat (seq 1 (List.length (trendingMovies s))) /\
      map View.key items = map Db.id (trendingMovies s) /\
      map View.src items = map Db.poster_url (trendingMovies s) /\
      map View.alt items = map Db.searchTerm (trendingMovies s)
  end.
Proof.
  unfold View.trending_section.
  destruct (trendingMovies s) as [| d rest] eqn:Hdocs; [reflexivity |].
  destruct (Z.of_nat (List.length (d :: rest)) =? 0) eqn:Hlen.
  - apply Z.eqb_eq in Hlen. cbn [List.length] in Hlen. lia.
  - split; [discriminate |].
    split; [rewrite items_from_rank; apply map_ext; intro k; lia |].
    apply items_from_fields.
Qed.

Lemma last_default {A} (l : list A) (a d d' : A) :
  last (a :: l) d = last (a :: l) d'.
Proof.
  revert a. induction l as [| b l IH]; intro a; [reflexivity |].
  change (last (b :: l) d = last (b :: l) d'). apply IH.
Qed.

Lemma last_after_head {A} (l : list A) (x d : A) :
  last (x :: l) d = last l x.
Proof.
  destruct l as [| b l]; [reflexivity |].
  change (last (b :: l) d = last (b :: l) x). apply last_default.
Qed.

Lemma clicks_step title c rest s :
  Card.clicks title (c :: rest) s =
    (fst (Card.clicks title rest (fst (Card.click title c s))),
     (snd (Card.click title c s) ++
      snd (Card.clicks title rest (fst (Card.click title c s))))%list).
Proof.
  cbn [Card.clicks].
  destruct (Card.click title c s) as [s' lines]. cbn [fst snd].
  destruct (Card.clicks title rest s') as [s'' lines']. reflexivity.
Qed.

(** X20.  A card counts every click on it, the clicks on its like
    button included (they bubble to the card): after any run of clicks
    the count has grown by the number of clicks. *)
Theorem card_counts_every_click title cs s :
  Card.count (fst (Card.clicks title cs s)) =
    Card.count s + Z.of_nat (List.length cs).
Proof.
  revert s. induction cs as [| c rest IH]; intro s.
  - cbn. lia.
  - rewrite clicks_step. cbn [fst]. rewrite IH.
    destruct c; cbn [Card.click fst Card.count List.length]; lia.
Qed.

(** X21.  The like button toggles: after any run of clicks the card is
    liked exactly when the number of clicks on the button was odd
    (starting from not liked), the button reads "Liked" then and "Like"
    otherwise, and the effect has logged one line per click on the
    button and none for the other clicks, the last line telling the
    current value. *)
Theorem like_button_toggles_and_logs title cs s :
  Card.hasLiked (fst (Card.clicks title cs s)) =
    xorb (Card.hasLiked s) (Nat.odd (List.length (filter Card.is_like cs))) /\
  Card.button_label (fst (Card.clicks title cs s)) =
    (if xorb (Card.hasLiked s) (Nat.odd (List.length (filter Card.is_like cs)))
     then "Liked" else "Like") /\
  List.length (snd (Card.clicks title cs s)) =
    List.length (filter Card.is_like cs) /\
  last (snd (Card.clicks title cs s)) (Card.liked_line title (Card.hasLiked s)) =
    Card.liked_line title (Card.hasLiked (fst (Card.clicks title cs s))).
Proof.
  assert (Hliked : forall cs s,
            Card.hasLiked (fst (Card.clicks title cs s)) =
            xorb (Card.hasLiked s) (Nat.odd (List.length (filter Card.is_like cs)))).
  { clear. induction cs as [| c rest IH]; intro s.
    - cbn. now rewrite xorb_false_r.
    - rewrite clicks_step. cbn [fst]. rewrite IH.
      destruct c; cbn [Card.click fst Card.hasLiked filter Card.is_like List.length].
      + reflexivity.
      + rewrite Nat.odd_succ, <- Nat.negb_odd.
        destruct (Card.hasLiked s), (Nat.odd (List.length (filter Card.is_like rest)));
          reflexivity. }
  split; [apply Hliked |].
  split; [unfold Card.button_label; now rewrite Hliked |].
  split.
  - revert s. induction cs as [| c rest IH]; intro s; [reflexivity |].
    rewrite clicks_step. cbn [snd]. rewrite length_app, IH.
    destruct c; cbn [Card.click snd Card.hasLiked filter Card.is_like List.length].
    + unfold Card.liked_effect. now rewrite Bool.eqb_reflx.
    + unfold Card.liked_effect.
      destruct (Card.hasLiked s); reflexivity.
  - revert s. induction cs as [| c rest IH]; intro s; [reflexivity |].
    rewrite clicks_step. cbn [fst snd].
    destruct c; cbn [Card.click fst snd Card.hasLiked].
    + unfold Card.liked_effect. rewrite Bool.eqb_reflx. cbn [app].
      rewrite <- IH. reflexivity.
    + unfold Card.liked_effect.
      assert (Hflip : Bool.eqb (Card.hasLiked s) (negb (Card.hasLiked s)) = false)
        by (destruct (Card.hasLiked s); reflexivity).
      rewrite Hflip. rewrite <- IH. cbn [Card.hasLiked app].
      apply last_after_head.
Qed.
